(** * Weather ingestion Lambda: a shallow embedding and its specification

    Embeds [lambda_handler] of
    [lambda_functions/weather_ingestion/lambda_function.py]: the Python
    values it manipulates (parsed JSON, ints, binary64 floats, strings),
    [decimal.Decimal], [datetime], and the AWS / HTTP services it calls,
    which are modelled as an arbitrary oracle that sees the whole history
    of calls made so far. *)

From Stdlib Require Import ZArith Bool List Lia QArith.
From Stdlib Require Import Strings.String Strings.Ascii.
Import ListNotations.
Set Warnings "-register-all".
Open Scope string_scope.
Open Scope Z_scope.

(** ** Results: a Python computation either returns or raises an
    exception; we keep the exception's [str(e)]. *)

Inductive result (A : Type) : Type :=
| Ok (a : A)
| Raise (msg : string).
Arguments Ok {A} a.
Arguments Raise {A} msg.

Definition rbind {A B} (r : result A) (f : A -> result B) : result B :=
  match r with Ok a => f a | Raise m => Raise m end.

Notation "x <-? r ;; k" := (rbind r (fun x => k))
  (at level 61, r at next level, right associativity).

(** ** Decimal printing of integers *)

Definition digit_char (d : Z) : ascii := ascii_of_nat (48 + Z.to_nat d).

Fixpoint digits_aux (fuel : nat) (n : Z) (acc : string) : string :=
  match fuel with
  | O => acc
  | S f =>
      let acc' := String (digit_char (n mod 10)) acc in
      if n <? 10 then acc' else digits_aux f (n / 10) acc'
  end.

(** [str(n)] for [n >= 0]. *)
Definition str_nonneg (n : Z) : string :=
  digits_aux (S (Z.to_nat (Z.log2 n))) n "".

(** [str(z)] for a Python int. *)
Definition str_Z (z : Z) : string :=
  if z <? 0 then "-" ++ str_nonneg (- z) else str_nonneg z.

Fixpoint zeros (n : nat) : string :=
  match n with O => "" | S k => String "0" (zeros k) end.

(** [f"{z:0wd}"] for [z >= 0]. *)
Definition zpad (w : nat) (z : Z) : string :=
  let s := str_Z z in zeros (w - String.length s) ++ s.

(** Number of decimal digits of [n > 0]. *)
Definition ndigits (n : Z) : Z := Z.of_nat (String.length (str_nonneg n)).

(** ** IEEE 754 binary64, as Python's [float]

    A finite float is [(-1)^neg * m * 2^e] in canonical form: either
    [2^52 <= m < 2^53] (normal) or [e = -1074] and [m < 2^52]
    (subnormal or zero). *)

Inductive float : Type :=
| Finite (neg : bool) (m e : Z)
| Infinity (neg : bool)
| NaN.

Definition Zsign (neg : bool) (z : Z) : Z := if neg then - z else z.

(** [n / d] rounded to an integer, ties to even ([n >= 0], [d > 0]). *)
Definition round_half_even (n d : Z) : Z :=
  let q := n / d in
  let r := n mod d in
  if 2 * r <? d then q
  else if d <? 2 * r then q + 1
  else if Z.even q then q else q + 1.

(** The pair [(n', d')] with [n' / d' = n / (d * 2^b)]. *)
Definition scale2 (n d b : Z) : Z * Z :=
  if 0 <=? b then (n, d * 2 ^ b) else (n * 2 ^ (- b), d).

(** Correctly rounded (round-to-nearest-even) binary64 value of
    [(-1)^neg * num / den], [num >= 0], [den > 0]: what Python's [float()]
    of a decimal literal, int true division and float multiplication
    produce. *)
Definition round_binary64 (neg : bool) (num den : Z) : float :=
  if num =? 0 then Finite neg 0 (-1074) else
  let b0 := Z.log2 num - Z.log2 den - 52 in
  let b1 :=
    let '(n, d) := scale2 num den b0 in
    if d * 2 ^ 53 <=? n then b0 + 1
    else if n <? d * 2 ^ 52 then b0 - 1 else b0 in
  let b2 := Z.max b1 (-1074) in
  let '(n, d) := scale2 num den b2 in
  let q := round_half_even n d in
  let '(q', b3) := if q =? 2 ^ 53 then (2 ^ 52, b2 + 1) else (q, b2) in
  if 971 <? b3 then Infinity neg else Finite neg q' b3.

(** Exact value [m * 2^e] as a fraction [(num, den)]. *)
Definition float_frac (m e : Z) : Z * Z :=
  if 0 <=? e then (m * 2 ^ e, 1) else (m, 2 ^ (- e)).

Definition float_eqb (x y : float) : bool :=
  match x, y with
  | Finite n1 m1 e1, Finite n2 m2 e2 =>
      Bool.eqb n1 n2 && (m1 =? m2) && (e1 =? e2)
  | Infinity n1, Infinity n2 => Bool.eqb n1 n2
  | _, _ => false
  end.

(** [k] with [10^k <= num/den < 10^(k+1)], for [num, den > 0]. *)
Definition floor_log10 (num den : Z) : Z :=
  if den <=? num then ndigits (num / den) - 1
  else - ndigits ((num + den - 1) / num - 1).

(** The two decimals with [nsig] significant digits around [num/den]:
    [(D, s)] and [(D + 1, s)], value [D * 10^s]. *)
Definition dec_frac (D s : Z) : Z * Z :=
  if 0 <=? s then (D * 10 ^ s, 1) else (D, 10 ^ (- s)).

Definition roundtrips (x : float) (neg : bool) (D s : Z) : bool :=
  let '(n, d) := dec_frac D s in float_eqb (round_binary64 neg n d) x.

(** Shortest-repr digit search (David Gay's mode 0, used by Python's
    [repr(float)] and [str(float)]): the fewest significant digits whose
    decimal reads back as the same float; among the candidates of that
    length, the one nearest the float (ties to the even digit string).
    The nearest such candidate is always [floor] or [ceil] of the float at
    that precision, so those two are the only ones examined. *)
Fixpoint shortest_aux (fuel : nat) (nsig : Z) (x : float) (neg : bool)
    (num den k : Z) : Z * Z :=
  match fuel with
  | O => (0, 0)
  | S f =>
      let s := k - nsig + 1 in
      let '(n', d') := if 0 <=? s then (num, den * 10 ^ s) else (num * 10 ^ (- s), den) in
      let lo := n' / d' in
      let hi := lo + 1 in
      let ok_lo := roundtrips x neg lo s in
      let ok_hi := roundtrips x neg hi s in
      (* distances to the float, scaled by d' *)
      let dlo := n' - lo * d' in
      let dhi := hi * d' - n' in
      if ok_lo && ok_hi then
        (if dlo <? dhi then (lo, s)
         else if dhi <? dlo then (hi, s)
         else if Z.even lo then (lo, s) else (hi, s))
      else if ok_lo then (lo, s)
      else if ok_hi then (hi, s)
      else if nsig =? 17 then (lo, s)
      else shortest_aux f (nsig + 1) x neg num den k
  end.

(** Digits [(D, s)] of [repr(x)] for a finite nonzero [x = Finite neg m e]. *)
Definition shortest_digits (neg : bool) (m e : Z) : Z * Z :=
  let '(num, den) := float_frac m e in
  shortest_aux 17 1 (Finite neg m e) neg num den (floor_log10 num den).

(** ** [decimal.Decimal] *)

Inductive decimal : Type :=
| DecFinite (neg : bool) (coef exp : Z)
| DecInfinity (neg : bool)
| DecNaN.

(** The numerical value of a finite decimal. *)
Definition dec_value (d : decimal) : option Q :=
  match d with
  | DecFinite neg c e =>
      Some (if 0 <=? e then inject_Z (Zsign neg (c * 10 ^ e))
            else Qmake (Zsign neg c) (Z.to_pos (10 ^ (- e))))
  | _ => None
  end.

(** [(D, s)] with the trailing zeros of [D] moved into [s]: the digit
    string that [dtoa] returns has no trailing zero. *)
Fixpoint strip_zeros (fuel : nat) (D s : Z) : Z * Z :=
  match fuel with
  | O => (D, s)
  | S f =>
      if (D =? 0) || negb (D mod 10 =? 0) then (D, s)
      else strip_zeros f (D / 10) (s + 1)
  end.

(** The digit string [digits] and the decimal point position [decpt] that
    [_Py_dg_dtoa] (mode 0) returns for a finite float [Finite neg m e]:
    its value is [0.digits * 10^decpt]; zero gives ["0"] and [decpt = 1]. *)
Definition repr_digits (neg : bool) (m e : Z) : Z * Z :=
  if m =? 0 then (0, 1)
  else let '(D, s) := shortest_digits neg m e in
       let '(D', s') := strip_zeros 20 D s in
       (D', s' + ndigits D').

(** [Decimal(str(x))] for a float [x]. [str] of a finite float is its
    [repr] (CPython's [format_float_short], type ['r'], flag
    [Py_DTSF_ADD_DOT_0]), which lays out [digits] and [decpt] as
    - ["d.ddde+XX"] when [decpt <= -4] or [decpt > 16],
    - ["0.000ddd"] when [decpt <= 0],
    - ["ddd.ddd"] when [0 < decpt < len digits],
    - ["ddd000.0"] (zeros padded, then [".0"]) otherwise;
    [Decimal] of such a string has every digit written as its coefficient
    and the exponent of its last digit as its exponent. [str] of an
    infinity is ["inf"] or ["-inf"] and of a NaN ["nan"], both read by
    [Decimal]. *)
Definition decimal_of_float (x : float) : decimal :=
  match x with
  | Finite neg m e =>
      let '(digits, decpt) := repr_digits neg m e in
      let n := ndigits digits in
      if (decpt <=? -4) || (16 <? decpt) then DecFinite neg digits (decpt - n)
      else if decpt <? n then DecFinite neg digits (decpt - n)
      else DecFinite neg (digits * 10 ^ (decpt - n + 1)) (-1)
  | Infinity neg => DecInfinity neg
  | NaN => DecNaN
  end.

(** ** Parsed JSON and the Python values [json.loads] builds *)

(** A JSON number as written in the payload: an integer literal, a
    literal with a fraction or an exponent, whose value is
    [(-1)^neg * m * 10^e] ([m >= 0]), or one of the tokens [NaN],
    [Infinity], [-Infinity] that Python's decoder accepts. *)
Inductive jnumber : Type :=
| JInt (z : Z)
| JFrac (neg : bool) (m e : Z)
| JNaN
| JInf (neg : bool).

Inductive json : Type :=
| JNull
| JBool (b : bool)
| JNumber (n : jnumber)
| JString (s : string)
| JArray (l : list json)
| JObject (kvs : list (string * json)).

Inductive pyval : Type :=
| PNone
| PBool (b : bool)
| PInt (z : Z)
| PFloat (x : float)
| PStr (s : string)
| PList (l : list pyval)
| PDict (kvs : list (string * pyval)).

Definition type_name (v : pyval) : string :=
  match v with
  | PNone => "NoneType" | PBool _ => "bool" | PInt _ => "int"
  | PFloat _ => "float" | PStr _ => "str" | PList _ => "list"
  | PDict _ => "dict"
  end.

(** Dicts keep insertion order; assigning an existing key keeps its place. *)
Fixpoint dict_get (d : list (string * pyval)) (k : string) : option pyval :=
  match d with
  | [] => None
  | (k', v) :: d' => if String.eqb k k' then Some v else dict_get d' k
  end.

Fixpoint dict_set (d : list (string * pyval)) (k : string) (v : pyval)
    : list (string * pyval) :=
  match d with
  | [] => [(k, v)]
  | (k', v') :: d' =>
      if String.eqb k k' then (k', v) :: d' else (k', v') :: dict_set d' k v
  end.

(** CPython's default limit on the digits of an int converted from or to
    a string ([sys.get_int_max_str_digits()]). *)
Definition int_max_str_digits : Z := 4300.

(** The [ValueError] of [int(s)] for a digit string [s] of [n > 4300]
    digits. *)
Definition int_digits_error (n : Z) : string :=
  "Exceeds the limit (4300 digits) for integer string conversion: value has "
  ++ str_nonneg n ++ " digits; use sys.set_int_max_str_digits() to increase the limit".

(** The [ValueError] of [str(i)] for an int [i] of more than 4300 digits. *)
Definition int_str_error : string :=
  "Exceeds the limit (4300 digits) for integer string conversion; "
  ++ "use sys.set_int_max_str_digits() to increase the limit".

(** [float(literal)] for a literal of value [(-1)^neg * m * 10^e]. *)
Definition float_of_literal (neg : bool) (m e : Z) : float :=
  if 0 <=? e then round_binary64 neg (m * 10 ^ e) 1
  else round_binary64 neg m (10 ^ (- e)).

(** [int(literal)] / [float(literal)] as called by the JSON decoder. *)
Definition loads_number (n : jnumber) : result pyval :=
  match n with
  | JInt z =>
      if int_max_str_digits <? ndigits (Z.abs z)
      then Raise (int_digits_error (ndigits (Z.abs z)))
      else Ok (PInt z)
  | JFrac neg m e => Ok (PFloat (float_of_literal neg m e))
  | JNaN => Ok (PFloat NaN)
  | JInf neg => Ok (PFloat (Infinity neg))
  end.

(** The values of an array, decoded in order: the first failure raises. *)
Fixpoint collect (l : list (result pyval)) : result (list pyval) :=
  match l with
  | [] => Ok []
  | Ok v :: l' => vs <-? collect l' ;; Ok (v :: vs)
  | Raise e :: _ => Raise e
  end.

(** The dict of an object, built pair by pair in order: a repeated key
    keeps its first position and takes its last value. *)
Fixpoint build_dict (d : list (string * pyval)) (kvs : list (string * result pyval))
    : result (list (string * pyval)) :=
  match kvs with
  | [] => Ok d
  | (k, Ok v) :: kvs' => build_dict (dict_set d k v) kvs'
  | (k, Raise e) :: _ => Raise e
  end.

(** [json.loads] on a syntactically valid document. *)
Fixpoint json_loads (j : json) : result pyval :=
  match j with
  | JNull => Ok PNone
  | JBool b => Ok (PBool b)
  | JNumber n => loads_number n
  | JString s => Ok (PStr s)
  | JArray l => vs <-? collect (map json_loads l) ;; Ok (PList vs)
  | JObject kvs =>
      d <-? build_dict [] (map (fun '(k, x) => (k, json_loads x)) kvs) ;;
      Ok (PDict d)
  end.

(** ** The Python operations the handler applies to the payload *)

Definition quote (s : string) : string := "'" ++ s ++ "'".

(** [v.get(k, default)] *)
Definition py_get (v : pyval) (k : string) (default : pyval) : result pyval :=
  match v with
  | PDict d => match dict_get d k with Some x => Ok x | None => Ok default end
  | _ => Raise (quote (type_name v) ++ " object has no attribute 'get'")
  end.

(** [v[k]] with a str key *)
Definition py_getitem (v : pyval) (k : string) : result pyval :=
  match v with
  | PDict d => match dict_get d k with Some x => Ok x | None => Raise (quote k) end
  | PList _ => Raise "list indices must be integers or slices, not str"
  | PStr _ => Raise "string indices must be integers, not 'str'"
  | _ => Raise (quote (type_name v) ++ " object is not subscriptable")
  end.

(** [v[0]] *)
Definition py_getitem0 (v : pyval) : result pyval :=
  match v with
  | PList (x :: _) => Ok x
  | PList [] => Raise "list index out of range"
  | PDict _ => Raise "0"
  | PStr (String c _) => Ok (PStr (String c EmptyString))
  | PStr EmptyString => Raise "string index out of range"
  | _ => Raise (quote (type_name v) ++ " object is not subscriptable")
  end.

(** [v[k] = x] with a str key *)
Definition py_setitem (v : pyval) (k : string) (x : pyval) : result pyval :=
  match v with
  | PDict d => Ok (PDict (dict_set d k x))
  | PList _ => Raise "list indices must be integers or slices, not str"
  | _ => Raise (quote (type_name v) ++ " object does not support item assignment")
  end.

(** [" ".replace(' ', '_')] *)
Fixpoint replace_space (s : string) : string :=
  match s with
  | EmptyString => EmptyString
  | String c s' =>
      String (if Ascii.eqb c " "%char then "_"%char else c) (replace_space s')
  end.

Definition conversion_syntax : string := "[<class 'decimal.ConversionSyntax'>]".

Section Decimal_of_str.

(** [Decimal(s)] for a str [s] that is itself a payload value (a JSON
    string where a number is expected): the string grammar of [Decimal]
    is left open, every theorem below holds for any parser. *)
Variable decimal_of_string : string -> result decimal.

(** [Decimal(str(v))]. *)
Definition Decimal_str (v : pyval) : result decimal :=
  match v with
  | PInt z =>
      if int_max_str_digits <? ndigits (Z.abs z) then Raise int_str_error
      else Ok (DecFinite (z <? 0) (Z.abs z) 0)
  | PFloat x => Ok (decimal_of_float x)
  | PStr s => decimal_of_string s
  | _ => Raise conversion_syntax   (* "None", "True", "[...]", "{...}" *)
  end.

End Decimal_of_str.

(** ** [datetime] *)

Record datetime : Type := mkdatetime {
  year : Z; month : Z; day : Z;
  hour : Z; minute : Z; second : Z; microsecond : Z
}.

(** [dt.isoformat()] *)
Definition isoformat (dt : datetime) : string :=
  zpad 4 (year dt) ++ "-" ++ zpad 2 (month dt) ++ "-" ++ zpad 2 (day dt)
  ++ "T" ++ zpad 2 (hour dt) ++ ":" ++ zpad 2 (minute dt) ++ ":"
  ++ zpad 2 (second dt)
  ++ (if microsecond dt =? 0 then "" else "." ++ zpad 6 (microsecond dt)).

(** [dt.strftime('%Y/%m/%d')] (glibc prints [%Y] without padding) *)
Definition strftime_ymd (dt : datetime) : string :=
  str_Z (year dt) ++ "/" ++ zpad 2 (month dt) ++ "/" ++ zpad 2 (day dt).

(** ** The external world: AWS clients, the weather API, the clock *)

Inductive service : Type :=
| S3Client                      (* boto3.client('s3') *)
| DynamoDBResource              (* boto3.resource('dynamodb') *)
| DynamoDBTable (name : string). (* dynamodb.Table(name) *)

Record s3_request : Type := mks3_request {
  Bucket : string;
  Key : string;
  Body : pyval;                 (* serialized by json.dumps(data, indent=2) *)
  ContentType : string;
  Metadata : list (string * string)
}.

(** A value of the [Item]: a payload value as boto3 receives it, or a
    [Decimal]. *)
Inductive attr : Type :=
| AVal (v : pyval)
| ANum (d : decimal).

Definition ddb_item : Type := list (string * attr).

(** What [json.loads(urlopen(url).read().decode())] gives back: the raise
    covers connection errors, non-2xx statuses ([HTTPError]), read and
    decode errors and JSON syntax errors. *)
Inductive fetch_outcome : Type :=
| FetchRaises (msg : string)
| FetchJson (j : json).

Inductive event : Type :=
| EvInit (s : service)
| EvNow (dt : datetime)
| EvHttpGet (url : string)
| EvS3Put (r : s3_request)
| EvDdbPut (item : ddb_item).

(** The history of calls, most recent first. *)
Definition trace : Type := list event.

(** Every service answers as an arbitrary function of the whole history:
    [None] is success, [Some msg] an exception. *)
Record world : Type := mkworld {
  w_init : trace -> service -> option string;
  w_now : trace -> datetime;
  w_http : trace -> string -> fetch_outcome;
  w_s3_put : trace -> s3_request -> option string;
  w_ddb_put : trace -> ddb_item -> option string
}.

(** ** The handler's monad: state (the trace) and exceptions *)

Definition M (A : Type) : Type := trace -> result A * trace.

Definition ret {A} (a : A) : M A := fun t => (Ok a, t).

Definition bind {A B} (m : M A) (f : A -> M B) : M B :=
  fun t => match m t with
           | (Ok a, t') => f a t'
           | (Raise e, t') => (Raise e, t')
           end.

Definition lift {A} (r : result A) : M A := fun t => (r, t).

(** [try: m except Exception as e: h(str(e))]; effects performed by [m]
    before it raised are kept. *)
Definition try_except {A} (m : M A) (h : string -> M A) : M A :=
  fun t => match m t with
           | (Ok a, t') => (Ok a, t')
           | (Raise e, t') => h e t'
           end.

Notation "x <- m ;; k" := (bind m (fun x => k))
  (at level 61, m at next level, right associativity).
Notation "m ;;; k" := (bind m (fun _ => k))
  (at level 61, right associativity).

Definition call (ev : event) (r : option string) : M unit :=
  fun t => (match r with None => Ok tt | Some e => Raise e end, ev :: t).

Definition init (w : world) (s : service) : M unit :=
  fun t => call (EvInit s) (w_init w t s) t.

Definition now (w : world) : M datetime :=
  fun t => let dt := w_now w t in (Ok dt, EvNow dt :: t).

Definition urlopen_json (w : world) (url : string) : M json :=
  fun t => (match w_http w t url with
            | FetchRaises e => Raise e
            | FetchJson j => Ok j
            end, EvHttpGet url :: t).

Definition s3_put_object (w : world) (r : s3_request) : M unit :=
  fun t => call (EvS3Put r) (w_s3_put w t r) t.

Definition table_put_item (w : world) (it : ddb_item) : M unit :=
  fun t => call (EvDdbPut it) (w_ddb_put w t it) t.

(** ** Float arithmetic of the success rate *)

(** [a / b] on Python ints (correctly rounded true division). *)
Definition py_truediv (a b : Z) : result float :=
  if b =? 0 then Raise "division by zero"
  else Ok (round_binary64 (xorb (a <? 0) (b <? 0)) (Z.abs a) (Z.abs b)).

(** [x * n] for a float [x] and an int [n > 0]. *)
Definition float_mul_pos (x : float) (n : Z) : float :=
  match x with
  | Finite neg m e => let '(num, den) := float_frac m e in
                      round_binary64 neg (num * n) den
  | Infinity neg => Infinity neg
  | NaN => NaN
  end.

(** [f"{x:.1f}"]: the exact binary value rounded half-even to one
    decimal place. *)
Definition format_1f (x : float) : string :=
  match x with
  | Finite neg m e =>
      let '(num, den) := float_frac m e in
      let r := round_half_even (num * 10) den in
      (if neg then "-" else "") ++ str_Z (r / 10) ++ "." ++ str_Z (r mod 10)
  | Infinity neg => if neg then "-inf" else "inf"
  | NaN => "nan"
  end.

(** ** [lambda_handler] *)

Definition cities : list string :=
  ["Pretoria"; "Cape%20Town"; "Johannesburg"; "Durban"].
Definition city_display : list string :=
  ["Pretoria"; "Cape Town"; "Johannesburg"; "Durban"].

Definition api_url (city api_key : string) : string :=
  "http://api.openweathermap.org/data/2.5/weather?q=" ++ city
  ++ "&appid=" ++ api_key ++ "&units=metric".

Definition s3_key_of (safe_city ymd timestamp : string) : string :=
  "raw-data/" ++ safe_city ++ "/" ++ ymd ++ "/" ++ timestamp ++ ".json".

Inductive city_result : Type :=
| CitySuccess (city timestamp : string) (temperature : pyval)
| CityError (city error : string).

Definition result_city (r : city_result) : string :=
  match r with CitySuccess c _ _ => c | CityError c _ => c end.

Definition is_success (r : city_result) : bool :=
  match r with CitySuccess _ _ _ => true | CityError _ _ => false end.

Inductive resp_body : Type :=
| BodyError (error : string)
| BodySummary (message : string) (processed_cities successful_cities : Z)
    (success_rate execution_time : string) (results : list city_result)
| BodyFatal (error details execution_time : string).

Record response : Type := mkresponse {
  statusCode : Z;
  body : resp_body
}.

(** [os.environ.get(k)] *)
Fixpoint env_get (env : list (string * string)) (k : string) : option string :=
  match env with
  | [] => None
  | (k', v) :: env' => if String.eqb k k' then Some v else env_get env' k
  end.

(** [if not v]: [None] and [""] are falsy. *)
Definition truthy (v : option string) : option string :=
  match v with
  | Some s => if String.eqb s "" then None else Some s
  | None => None
  end.

Definition fatal_label : string := "Fatal error in weather data collection".

Section Handler.

Variable decimal_of_string : string -> result decimal.
Variable w : world.

Let Dec (v : pyval) : result attr :=
  d <-? Decimal_str decimal_of_string v ;; Ok (ANum d).

(** The [Item] of [table.put_item], its values evaluated in order. *)
Definition build_item (display_name timestamp : string) (data : pyval)
    : result ddb_item :=
  main <-? py_getitem data "main" ;;
  temperature <-? (v <-? py_getitem main "temp" ;; Dec v) ;;
  humidity <-? (main' <-? py_getitem data "main" ;;
                v <-? py_getitem main' "humidity" ;; Dec v) ;;
  pressure <-? (main' <-? py_getitem data "main" ;;
                v <-? py_getitem main' "pressure" ;; Dec v) ;;
  weather_condition <-? (l <-? py_getitem data "weather" ;;
                         x <-? py_getitem0 l ;; py_getitem x "main") ;;
  weather_description <-? (l <-? py_getitem data "weather" ;;
                           x <-? py_getitem0 l ;; py_getitem x "description") ;;
  wind_speed <-? (x <-? py_getitem data "wind" ;;
                  v <-? py_getitem x "speed" ;; Dec v) ;;
  visibility <-? (v <-? py_get data "visibility" (PInt 0) ;; Dec v) ;;
  cloudiness <-? (x <-? py_getitem data "clouds" ;;
                  v <-? py_getitem x "all" ;; Dec v) ;;
  country <-? (x <-? py_getitem data "sys" ;; py_getitem x "country") ;;
  sunrise <-? (x <-? py_getitem data "sys" ;;
               v <-? py_getitem x "sunrise" ;; Dec v) ;;
  sunset <-? (x <-? py_getitem data "sys" ;;
              v <-? py_getitem x "sunset" ;; Dec v) ;;
  Ok [("city", AVal (PStr display_name)); ("timestamp", AVal (PStr timestamp));
      ("temperature", temperature); ("humidity", humidity);
      ("pressure", pressure);
      ("weather_condition", AVal weather_condition);
      ("weather_description", AVal weather_description);
      ("wind_speed", wind_speed); ("visibility", visibility);
      ("cloudiness", cloudiness); ("country", AVal country);
      ("sunrise", sunrise); ("sunset", sunset)].

(** The body of the per-city [try] block. *)
Definition city_body (api_key bucket_name city display_name : string)
    : M city_result :=
     j <- urlopen_json w (api_url city api_key) ;;
     data <- lift (json_loads j) ;;
     main <- lift (py_get data "main" (PDict [])) ;;
     current_temp <- lift (py_get main "temp" (PStr "N/A")) ;;
     dt <- now w ;;
     let timestamp := isoformat dt in
     data <- lift (py_setitem data "timestamp" (PStr timestamp)) ;;
     data <- lift (py_setitem data "city" (PStr display_name)) ;;
     let safe_city := replace_space display_name in
     dt2 <- now w ;;
     let s3_key := s3_key_of safe_city (strftime_ymd dt2) timestamp in
     s3_put_object w
       (mks3_request bucket_name s3_key data "application/json"
          [("city", display_name); ("collection_time", timestamp);
           ("data_source", "openweathermap")]) ;;;
     item <- lift (build_item display_name timestamp data) ;;
     table_put_item w item ;;;
     ret (CitySuccess display_name timestamp current_temp).

(** One iteration of the [for] loop: the [try] block and its
    [except Exception as e] clause. *)
Definition process_city (api_key bucket_name city display_name : string)
    : M city_result :=
  try_except (city_body api_key bucket_name city display_name)
    (fun e => ret (CityError display_name e)).

Fixpoint process_cities (api_key bucket_name : string)
    (cs : list (string * string)) (results : list city_result)
    : M (list city_result) :=
  match cs with
  | [] => ret results
  | (city, display_name) :: cs' =>
      r <- process_city api_key bucket_name city display_name ;;
      process_cities api_key bucket_name cs' (results ++ [r])%list
  end.

(** The body of the outer [try]. *)
Definition handler_body (env : list (string * string)) : M response :=
  init w S3Client ;;;
  init w DynamoDBResource ;;;
  init w (DynamoDBTable "WeatherData") ;;;
  let api_key := env_get env "WEATHER_API_KEY" in
  let bucket_name := env_get env "S3_BUCKET_NAME" in
  match truthy api_key with
  | None =>
      ret (mkresponse 400
             (BodyError "Missing WEATHER_API_KEY environment variable"))
  | Some key =>
  match truthy bucket_name with
  | None =>
      ret (mkresponse 400
             (BodyError "Missing S3_BUCKET_NAME environment variable"))
  | Some bucket =>
      results <- process_cities key bucket (combine cities city_display) [] ;;
      let successful_cities := filter is_success results in
      q <- lift (py_truediv (Z.of_nat (List.length successful_cities))
                            (Z.of_nat (List.length results))) ;;
      let success_rate := float_mul_pos q 100 in
      dt <- now w ;;
      ret (mkresponse 200
             (BodySummary "Weather data collection completed"
                (Z.of_nat (List.length results))
                (Z.of_nat (List.length successful_cities))
                (format_1f success_rate ++ "%") (isoformat dt) results))
  end
  end.

Definition lambda_handler (env : list (string * string)) (event context : pyval)
    : M response :=
  try_except (handler_body env)
    (fun e => dt <- now w ;;
              ret (mkresponse 500 (BodyFatal fatal_label e (isoformat dt)))).

End Handler.

(** ** Auxiliary definitions for the specification *)

Definition city_pairs : list (string * string) := combine cities city_display.

(** What the [except] clause makes of the outcome of a [try] block. *)
Definition outcome_result (display_name : string) (o : result city_result)
    : city_result :=
  match o with Ok r => r | Raise e => CityError display_name e end.

(** The per-city [try] blocks run one after the other, each from the
    trace the previous one left, with nothing caught. *)
Fixpoint run_bodies (ds : string -> result decimal) (w : world)
    (api_key bucket_name : string) (cs : list (string * string)) (t : trace)
    : list (result city_result) * trace :=
  match cs with
  | [] => ([], t)
  | (city, display_name) :: cs' =>
      let '(o, t1) := city_body ds w api_key bucket_name city display_name t in
      let '(os, t2) := run_bodies ds w api_key bucket_name cs' t1 in
      (o :: os, t2)
  end.

Fixpoint results_of (cs : list (string * string)) (os : list (result city_result))
    : list city_result :=
  match cs, os with
  | (_, display_name) :: cs', o :: os' =>
      outcome_result display_name o :: results_of cs' os'
  | _, _ => []
  end.

Definition count_success (rs : list city_result) : Z :=
  Z.of_nat (List.length (filter is_success rs)).

(** The trace after the three client constructions. *)
Definition init_trace (t : trace) : trace :=
  EvInit (DynamoDBTable "WeatherData") :: EvInit DynamoDBResource
  :: EvInit S3Client :: t.

(** The three client constructions succeed. *)
Definition clients_ok (w : world) (t : trace) : Prop :=
  w_init w t S3Client = None /\
  w_init w (EvInit S3Client :: t) DynamoDBResource = None /\
  w_init w (EvInit DynamoDBResource :: EvInit S3Client :: t)
    (DynamoDBTable "WeatherData") = None.

(** The success rate as the spec words it: [successes / total * 100] in
    exact arithmetic, to one decimal place, followed by ["%"]. *)
Definition rate_spec (s total : Z) : string :=
  let r := round_half_even (s * 1000) total in
  str_Z (r / 10) ++ "." ++ str_Z (r mod 10) ++ "%".

(** The first client construction that fails raises [e], leaving [t1]. *)
Definition clients_fail (w : world) (t : trace) (e : string) (t1 : trace) : Prop :=
  (w_init w t S3Client = Some e /\ t1 = EvInit S3Client :: t) \/
  (w_init w t S3Client = None /\
   w_init w (EvInit S3Client :: t) DynamoDBResource = Some e /\
   t1 = EvInit DynamoDBResource :: EvInit S3Client :: t) \/
  (w_init w t S3Client = None /\
   w_init w (EvInit S3Client :: t) DynamoDBResource = None /\
   w_init w (EvInit DynamoDBResource :: EvInit S3Client :: t)
     (DynamoDBTable "WeatherData") = Some e /\
   t1 = init_trace t).

Definition missing_key_msg : string := "Missing WEATHER_API_KEY environment variable".
Definition missing_bucket_msg : string := "Missing S3_BUCKET_NAME environment variable".

Definition is_raise (o : result city_result) : bool :=
  match o with Raise _ => true | Ok _ => false end.

Definition count_raised (os : list (result city_result)) : Z :=
  Z.of_nat (List.length (filter is_raise os)).

(** ** Paths into the payload *)

(** The value of key [k] in a JSON object's pairs: the last binding wins,
    as in the dict [json.loads] builds. *)
Fixpoint last_lookup {X} (kvs : list (string * X)) (k : string) : option X :=
  match kvs with
  | [] => None
  | (k', x) :: kvs' =>
      match last_lookup kvs' k with
      | Some y => Some y
      | None => if String.eqb k k' then Some x else None
      end
  end.

Definition json_get (j : json) (k : string) : option json :=
  match j with JObject kvs => last_lookup kvs k | _ => None end.

Fixpoint json_at (j : json) (path : list string) : option json :=
  match path with
  | [] => Some j
  | k :: ks => match json_get j k with Some x => json_at x ks | None => None end
  end.

(** [v[k1][k2]...] *)
Fixpoint py_path (v : pyval) (path : list string) : result pyval :=
  match path with
  | [] => Ok v
  | k :: ks => x <-? py_getitem v k ;; py_path x ks
  end.

Fixpoint item_get (it : ddb_item) (f : string) : option attr :=
  match it with
  | [] => None
  | (f', a) :: it' => if String.eqb f f' then Some a else item_get it' f
  end.

(** The numeric attributes of the DynamoDB item and where their values
    come from in the payload. *)
Definition numeric_fields : list (string * list string) :=
  [("temperature", ["main"; "temp"]); ("humidity", ["main"; "humidity"]);
   ("pressure", ["main"; "pressure"]); ("wind_speed", ["wind"; "speed"]);
   ("visibility", ["visibility"]); ("cloudiness", ["clouds"; "all"]);
   ("sunrise", ["sys"; "sunrise"]); ("sunset", ["sys"; "sunset"])].

(** [Decimal(str(x))] for the value [json.loads] makes of a JSON number:
    an integer keeps its digits; a literal with a fraction or exponent
    goes through the nearest binary64 float and [str] of that float
    ([decimal_of_float]). *)
Definition stored_decimal (n : jnumber) : decimal :=
  match n with
  | JInt z => DecFinite (z <? 0) (Z.abs z) 0
  | JFrac neg m e => decimal_of_float (float_of_literal neg m e)
  | JNaN => DecNaN
  | JInf neg => DecInfinity neg
  end.

(** The exact value of a JSON number literal. *)
Definition jnumber_value (n : jnumber) : option Q :=
  match n with
  | JInt z => Some (inject_Z z)
  | JFrac neg m e =>
      Some (if 0 <=? e then inject_Z (Zsign neg (m * 10 ^ e))
            else Qmake (Zsign neg m) (Z.to_pos (10 ^ (- e))))
  | _ => None
  end.

Definition is_number (o : option json) : bool :=
  match o with Some (JNumber _) => true | _ => false end.

Definition is_present (o : option json) : bool :=
  match o with Some _ => true | None => false end.

Definition decodes (j : json) : bool :=
  match json_loads j with Ok _ => true | Raise _ => false end.

(** The payload decodes and carries every field the item reads, other
    than [visibility], with a number wherever a [Decimal] is built. *)
Definition expected_fields (j : json) : bool :=
  decodes j &&
  is_number (json_at j ["main"; "temp"]) &&
  is_number (json_at j ["main"; "humidity"]) &&
  is_number (json_at j ["main"; "pressure"]) &&
  match json_at j ["weather"] with
  | Some (JArray (x :: _)) =>
      is_present (json_get x "main") && is_present (json_get x "description")
  | _ => false
  end &&
  is_number (json_at j ["wind"; "speed"]) &&
  is_number (json_at j ["clouds"; "all"]) &&
  is_present (json_at j ["sys"; "country"]) &&
  is_number (json_at j ["sys"; "sunrise"]) &&
  is_number (json_at j ["sys"; "sunset"]).

(** ** Concrete inputs *)

(** An OpenWeatherMap-shaped payload with the given [main.temp]. *)
Definition sample_payload (temp : jnumber) : json :=
  JObject
    [("weather", JArray [JObject [("main", JString "Clear");
                                  ("description", JString "clear sky")]]);
     ("main", JObject [("temp", JNumber temp);
                       ("humidity", JNumber (JInt 40));
                       ("pressure", JNumber (JInt 1015))]);
     ("visibility", JNumber (JInt 10000));
     ("wind", JObject [("speed", JNumber (JFrac false 36 (-1)))]);
     ("clouds", JObject [("all", JNumber (JInt 0))]);
     ("sys", JObject [("country", JString "ZA");
                      ("sunrise", JNumber (JInt 1709611200));
                      ("sunset", JNumber (JInt 1709656800))])].

Definition clock0 : datetime := mkdatetime 2024 3 5 10 0 0 0.

(** Every service succeeds, the API serves [payload] for every city and
    the clock stays at [clock0]. *)
Definition world_ok (payload : json) : world :=
  mkworld (fun _ _ => None) (fun _ => clock0) (fun _ _ => FetchJson payload)
          (fun _ _ => None) (fun _ _ => None).

(** As [world_ok], but [boto3.resource('dynamodb')] raises botocore's
    [NoRegionError]. *)
Definition world_no_region : world :=
  mkworld (fun _ s => match s with
                      | DynamoDBResource => Some "You must specify a region."
                      | _ => None
                      end)
          (fun _ => clock0)
          (fun _ _ => FetchJson (sample_payload (JFrac false 23456 (-3))))
          (fun _ _ => None) (fun _ _ => None).

(** As [world_ok] with [sample_payload 23.456], except that the request
    for Johannesburg fails with a network error. *)
Definition world_one_down : world :=
  mkworld (fun _ _ => None) (fun _ => clock0)
          (fun _ url =>
             if String.eqb url (api_url "Johannesburg" "k")
             then FetchRaises "<urlopen error [Errno -3] Temporary failure in name resolution>"
             else FetchJson (sample_payload (JFrac false 23456 (-3))))
          (fun _ _ => None) (fun _ _ => None).

Definition is_now (ev : event) : bool :=
  match ev with EvNow _ => true | _ => false end.

(** As [world_ok] with [sample_payload 23.456], but the clock passes
    midnight between its first and its second reading. *)
Definition world_midnight : world :=
  mkworld (fun _ _ => None)
          (fun tr => if existsb is_now tr
                     then mkdatetime 2024 3 6 0 0 0 0
                     else mkdatetime 2024 3 5 23 59 59 999999)
          (fun _ _ => FetchJson (sample_payload (JFrac false 23456 (-3))))
          (fun _ _ => None) (fun _ _ => None).

(** The keys of the S3 writes of a trace, most recent first. *)
Fixpoint s3_keys (tr : trace) : list string :=
  match tr with
  | [] => []
  | EvS3Put r :: tr' => Key r :: s3_keys tr'
  | _ :: tr' => s3_keys tr'
  end.

(** A [Decimal] string parser that rejects every string. *)
Definition reject_strings : string -> result decimal :=
  fun _ => Raise conversion_syntax.

(** An environment with both variables set. *)
Definition env_kb : list (string * string) :=
  [("WEATHER_API_KEY", "k"); ("S3_BUCKET_NAME", "b")].

(** A payload without [visibility]. *)
Definition payload_no_visibility : json :=
  JObject
    [("weather", JArray [JObject [("main", JString "Clouds");
                                  ("description", JString "overcast clouds")]]);
     ("main", JObject [("temp", JNumber (JFrac false 1875 (-2)));
                       ("humidity", JNumber (JInt 82));
                       ("pressure", JNumber (JInt 1021))]);
     ("wind", JObject [("speed", JNumber (JFrac false 51 (-1)))]);
     ("clouds", JObject [("all", JNumber (JInt 100))]);
     ("sys", JObject [("country", JString "ZA");
                      ("sunrise", JNumber (JInt 1709611200));
                      ("sunset", JNumber (JInt 1709656800))])].

(** ** Observations of a history *)

(** The URLs requested, most recent first. *)
Fixpoint http_urls (tr : trace) : list string :=
  match tr with
  | [] => []
  | EvHttpGet u :: tr' => u :: http_urls tr'
  | _ :: tr' => http_urls tr'
  end.

(** The DynamoDB writes of a history that the service accepted. *)
Fixpoint ddb_written (w : world) (tr : trace) : Z :=
  match tr with
  | [] => 0
  | EvDdbPut it :: tr' =>
      match w_ddb_put w tr' it with None => 1 | Some _ => 0 end + ddb_written w tr'
  | _ :: tr' => ddb_written w tr'
  end.


(** * Proofs *)

(** Case on the innermost [match] of the goal, repeatedly. *)
Ltac step_M :=
  repeat match goal with
  | |- context [match ?x with _ => _ end] =>
      lazymatch x with
      | context [match _ with _ => _ end] => fail
      | _ => let E := fresh "E" in destruct x eqn:E
      end
  end.

Lemma process_city_eq ds w k b c d t o t1 :
  city_body ds w k b c d t = (o, t1) ->
  process_city ds w k b c d t = (Ok (outcome_result d o), t1).
Proof.
  intros H. unfold process_city, try_except. rewrite H.
  destruct o; reflexivity.
Qed.

Lemma run_bodies_length ds w k b cs t os t' :
  run_bodies ds w k b cs t = (os, t') -> List.length os = List.length cs.
Proof.
  revert t os. induction cs as [|[c d] cs IH]; simpl; intros t os H.
  - inversion H; reflexivity.
  - destruct (city_body ds w k b c d t) as [o t1].
    destruct (run_bodies ds w k b cs t1) as [os1 t2] eqn:E.
    inversion H; subst. simpl. f_equal. eapply IH; eauto.
Qed.

Lemma process_cities_eq ds w k b cs acc t os t' :
  run_bodies ds w k b cs t = (os, t') ->
  process_cities ds w k b cs acc t = (Ok (acc ++ results_of cs os)%list, t').
Proof.
  revert acc t os. induction cs as [|[c d] cs IH]; simpl; intros acc t os H.
  - inversion H; subst. rewrite app_nil_r. reflexivity.
  - destruct (city_body ds w k b c d t) as [o t1] eqn:Eb.
    destruct (run_bodies ds w k b cs t1) as [os1 t2] eqn:E.
    inversion H; subst. unfold bind.
    rewrite (process_city_eq _ _ _ _ _ _ _ _ _ Eb).
    rewrite (IH _ _ _ E). simpl. rewrite <- app_assoc. reflexivity.
Qed.

Lemma city_body_success ds w k b c d t r t' :
  city_body ds w k b c d t = (Ok r, t') ->
  exists ts temp, r = CitySuccess d ts temp.
Proof.
  unfold city_body, bind, lift, ret, urlopen_json, now, s3_put_object,
    table_put_item, call.
  step_M; intros H; inversion H; eauto.
Qed.

Lemma results_of_cities ds w k b cs t os t' :
  run_bodies ds w k b cs t = (os, t') ->
  map result_city (results_of cs os) = map snd cs.
Proof.
  revert t os. induction cs as [|[c d] cs IH]; simpl; intros t os H.
  - inversion H; reflexivity.
  - destruct (city_body ds w k b c d t) as [o t1] eqn:Eb.
    destruct (run_bodies ds w k b cs t1) as [os1 t2] eqn:E.
    inversion H; subst. simpl. f_equal.
    + destruct o as [r|e]; simpl; [|reflexivity].
      destruct (city_body_success _ _ _ _ _ _ _ _ _ Eb) as (ts & temp & ->).
      reflexivity.
    + eapply IH; eauto.
Qed.

Lemma results_of_length cs os :
  List.length os = List.length cs -> List.length (results_of cs os) = List.length cs.
Proof.
  revert os. induction cs as [|[c d] cs IH]; intros [|o os]; simpl; intros H;
    try discriminate; auto.
Qed.

Lemma count_success_bound rs : 0 <= count_success rs <= Z.of_nat (List.length rs).
Proof.
  unfold count_success. pose proof (filter_length_le is_success rs). lia.
Qed.

Lemma rate_code_spec s :
  0 <= s <= 4 ->
  format_1f (float_mul_pos (round_binary64 (xorb (s <? 0) (4 <? 0)) (Z.abs s) (Z.abs 4)) 100)
    ++ "%" = rate_spec s 4.
Proof.
  intros Hs. assert (s = 0 \/ s = 1 \/ s = 2 \/ s = 3 \/ s = 4) as Hc by lia.
  destruct Hc as [->|[->|[->|[->| ->]]]]; vm_compute; reflexivity.
Qed.

Lemma handler_body_200 ds w env t k b os t2 :
  clients_ok w t ->
  truthy (env_get env "WEATHER_API_KEY") = Some k ->
  truthy (env_get env "S3_BUCKET_NAME") = Some b ->
  run_bodies ds w k b city_pairs (init_trace t) = (os, t2) ->
  handler_body ds w env t =
    (Ok (mkresponse 200
           (BodySummary "Weather data collection completed" 4
              (count_success (results_of city_pairs os))
              (rate_spec (count_success (results_of city_pairs os)) 4)
              (isoformat (w_now w t2)) (results_of city_pairs os))),
     EvNow (w_now w t2) :: t2).
Proof.
  intros (H1 & H2 & H3) Hk Hb Hrun.
  pose proof (run_bodies_length _ _ _ _ _ _ _ _ Hrun) as Hlen.
  pose proof (results_of_length _ _ Hlen) as Hlen'.
  unfold init_trace in Hrun.
  pose proof (process_cities_eq _ _ _ _ _ [] _ _ _ Hrun) as Hp.
  rewrite app_nil_l in Hp.
  set (rs := results_of city_pairs os) in *.
  pose proof (count_success_bound rs) as Hcnt.
  rewrite Hlen' in Hcnt. change (Z.of_nat (List.length city_pairs)) with 4 in Hcnt.
  unfold handler_body, bind, init, call, lift, now, ret.
  rewrite H1, H2, H3, Hk, Hb. fold city_pairs. rewrite Hp, Hlen'.
  change (Z.of_nat (List.length city_pairs)) with 4.
  unfold py_truediv. change (4 =? 0) with false. cbv iota.
  fold (count_success rs).
  rewrite rate_code_spec by exact Hcnt.
  reflexivity.
Qed.

Lemma handler_body_missing_key ds w env t :
  clients_ok w t ->
  truthy (env_get env "WEATHER_API_KEY") = None ->
  handler_body ds w env t = (Ok (mkresponse 400 (BodyError missing_key_msg)), init_trace t).
Proof.
  intros (H1 & H2 & H3) Hk.
  unfold handler_body, bind, init, call, ret. rewrite H1, H2, H3, Hk. reflexivity.
Qed.

Lemma handler_body_missing_bucket ds w env t k :
  clients_ok w t ->
  truthy (env_get env "WEATHER_API_KEY") = Some k ->
  truthy (env_get env "S3_BUCKET_NAME") = None ->
  handler_body ds w env t = (Ok (mkresponse 400 (BodyError missing_bucket_msg)), init_trace t).
Proof.
  intros (H1 & H2 & H3) Hk Hb.
  unfold handler_body, bind, init, call, ret. rewrite H1, H2, H3, Hk, Hb. reflexivity.
Qed.

Lemma handler_body_clients_fail ds w env t e t1 :
  clients_fail w t e t1 -> handler_body ds w env t = (Raise e, t1).
Proof.
  unfold handler_body, bind, init, call.
  intros [(H1 & ->) | [(H1 & H2 & ->) | (H1 & H2 & H3 & ->)]].
  - rewrite H1. reflexivity.
  - rewrite H1, H2. reflexivity.
  - rewrite H1, H2, H3. reflexivity.
Qed.

Lemma clients_ok_or_fail w t :
  clients_ok w t \/ exists e t1, clients_fail w t e t1.
Proof.
  unfold clients_ok, clients_fail.
  destruct (w_init w t S3Client) as [e|] eqn:H1; [right; eauto|].
  destruct (w_init w (EvInit S3Client :: t) DynamoDBResource) as [e|] eqn:H2;
    [right; eauto 7|].
  destruct (w_init w (EvInit DynamoDBResource :: EvInit S3Client :: t)
              (DynamoDBTable "WeatherData")) as [e|] eqn:H3; [right; eauto 10|].
  left; auto.
Qed.

Lemma handler_body_ok_shape ds w env t :
  clients_ok w t ->
  exists r t', handler_body ds w env t = (Ok r, t') /\
               (statusCode r = 200 \/ statusCode r = 400).
Proof.
  intros Hc.
  destruct (truthy (env_get env "WEATHER_API_KEY")) as [k|] eqn:Hk.
  - destruct (truthy (env_get env "S3_BUCKET_NAME")) as [b|] eqn:Hb.
    + destruct (run_bodies ds w k b city_pairs (init_trace t)) as [os t2] eqn:Hr.
      eexists _, _. split; [apply (handler_body_200 _ _ _ _ _ _ _ _ Hc Hk Hb Hr)|].
      left; reflexivity.
    + eexists _, _. split; [apply (handler_body_missing_bucket _ _ _ _ _ Hc Hk Hb)|].
      right; reflexivity.
  - eexists _, _. split; [apply (handler_body_missing_key _ _ _ _ Hc Hk)|].
    right; reflexivity.
Qed.

Lemma lambda_handler_fatal ds w env ev ctx t e t1 :
  handler_body ds w env t = (Raise e, t1) ->
  lambda_handler ds w env ev ctx t =
    (Ok (mkresponse 500 (BodyFatal fatal_label e (isoformat (w_now w t1)))),
     EvNow (w_now w t1) :: t1).
Proof.
  intros H. unfold lambda_handler, try_except, bind, now, ret. rewrite H. reflexivity.
Qed.

Lemma lambda_handler_ok ds w env ev ctx t r t1 :
  handler_body ds w env t = (Ok r, t1) ->
  lambda_handler ds w env ev ctx t = (Ok r, t1).
Proof.
  intros H. unfold lambda_handler, try_except. rewrite H. reflexivity.
Qed.

Lemma lambda_handler_clients_fail ds w env ev ctx t e t1 :
  clients_fail w t e t1 ->
  lambda_handler ds w env ev ctx t =
    (Ok (mkresponse 500 (BodyFatal fatal_label e (isoformat (w_now w t1)))),
     EvNow (w_now w t1) :: t1).
Proof.
  intros Hf. apply lambda_handler_fatal, handler_body_clients_fail; exact Hf.
Qed.

(** ** C2: the handler never raises *)

(** C2. Whatever the event, context, environment and the behaviour of
    every external service, [lambda_handler] returns a response and never
    raises. Either an exception escaped the per-city isolation, which can
    only be the failure of a client construction before the loop, and the
    response is status 500 with the fixed label, the exception's message
    and the current instant (and no per-city results); or the handler body
    returned normally, with status 200 or 400. *)
Theorem lambda_handler_never_raises ds w env ev ctx t :
  exists r t', lambda_handler ds w env ev ctx t = (Ok r, t') /\
  ((exists e t1, clients_fail w t e t1 /\
     r = mkresponse 500 (BodyFatal fatal_label e (isoformat (w_now w t1))) /\
     t' = EvNow (w_now w t1) :: t1) \/
   (clients_ok w t /\ handler_body ds w env t = (Ok r, t') /\
    (statusCode r = 200 \/ statusCode r = 400))).
Proof.
  destruct (clients_ok_or_fail w t) as [Hc | (e & t1 & Hf)].
  - destruct (handler_body_ok_shape ds w env t Hc) as (r & t' & Hb & Hs).
    exists r, t'. split; [apply lambda_handler_ok; exact Hb|].
    right; auto.
  - pose proof (handler_body_clients_fail ds w env t e t1 Hf) as Hb.
    eexists _, _. split; [apply (lambda_handler_fatal _ _ _ _ _ _ _ _ Hb)|].
    left. exists e, t1. auto.
Qed.

Lemma handler_body_env_ext ds w env1 env2 :
  truthy (env_get env1 "WEATHER_API_KEY") = truthy (env_get env2 "WEATHER_API_KEY") ->
  truthy (env_get env1 "S3_BUCKET_NAME") = truthy (env_get env2 "S3_BUCKET_NAME") ->
  handler_body ds w env1 = handler_body ds w env2.
Proof.
  intros Hk Hb. unfold handler_body. cbv zeta. rewrite Hk, Hb. reflexivity.
Qed.

(** ** C3: a missing configuration variable *)

(** C3 (counterexample). The clients are built before the configuration
    is checked: with no [WEATHER_API_KEY] and no AWS region configured,
    the handler answers 500, not 400. *)
Lemma missing_key_no_region_500 :
  fst (lambda_handler reject_strings world_no_region [] PNone PNone []) =
  Ok (mkresponse 500 (BodyFatal fatal_label "You must specify a region."
                        "2024-03-05T10:00:00")).
Proof. vm_compute. reflexivity. Qed.

(** C3 (amended). Once the three clients have been constructed, a missing
    [WEATHER_API_KEY] gives status 400 with its message, and a missing
    [S3_BUCKET_NAME] (with the key set) status 400 with its message; in
    both cases the only calls made are the client constructions: no HTTP
    request and no storage write. If a client construction fails, the
    handler answers status 500 instead, with the fixed label, the
    exception's message and the current instant. *)
Theorem missing_config_400 ds w env ev ctx t :
  (clients_ok w t -> env_get env "WEATHER_API_KEY" = None ->
   lambda_handler ds w env ev ctx t =
     (Ok (mkresponse 400 (BodyError missing_key_msg)), init_trace t)) /\
  (clients_ok w t -> truthy (env_get env "WEATHER_API_KEY") <> None ->
   env_get env "S3_BUCKET_NAME" = None ->
   lambda_handler ds w env ev ctx t =
     (Ok (mkresponse 400 (BodyError missing_bucket_msg)), init_trace t)) /\
  (forall e t1, clients_fail w t e t1 ->
   lambda_handler ds w env ev ctx t =
     (Ok (mkresponse 500 (BodyFatal fatal_label e (isoformat (w_now w t1)))),
      EvNow (w_now w t1) :: t1)).
Proof.
  split; [|split].
  - intros Hc Hk. apply lambda_handler_ok, handler_body_missing_key; auto.
    rewrite Hk; reflexivity.
  - intros Hc Hk Hb. destruct (truthy (env_get env "WEATHER_API_KEY")) as [k|] eqn:Ek;
      [|congruence].
    apply lambda_handler_ok. apply (handler_body_missing_bucket _ _ _ _ k); auto.
    rewrite Hb; reflexivity.
  - intros e t1 Hf. apply lambda_handler_clients_fail; exact Hf.
Qed.

Lemma missing_config_400_witness :
  clients_ok (world_ok JNull) [] /\
  lambda_handler reject_strings (world_ok JNull) [] PNone PNone [] =
    (Ok (mkresponse 400 (BodyError missing_key_msg)), init_trace []) /\
  lambda_handler reject_strings (world_ok JNull) [("WEATHER_API_KEY", "k")] PNone PNone [] =
    (Ok (mkresponse 400 (BodyError missing_bucket_msg)), init_trace []) /\
  clients_fail world_no_region [] "You must specify a region."
    [EvInit DynamoDBResource; EvInit S3Client] /\
  lambda_handler reject_strings world_no_region [] PNone PNone [] =
    (Ok (mkresponse 500 (BodyFatal fatal_label "You must specify a region."
                           "2024-03-05T10:00:00")),
     [EvNow clock0; EvInit DynamoDBResource; EvInit S3Client]).
Proof.
  assert (Hc : clients_ok (world_ok JNull) []) by (repeat split).
  assert (Hf : clients_fail world_no_region [] "You must specify a region."
                 [EvInit DynamoDBResource; EvInit S3Client])
    by (right; left; repeat split).
  split; [exact Hc|]. split; [|split; [|split]].
  - apply (missing_config_400 reject_strings (world_ok JNull) [] PNone PNone []);
      [exact Hc | reflexivity].
  - apply (missing_config_400 reject_strings (world_ok JNull) [("WEATHER_API_KEY", "k")]
             PNone PNone []); [exact Hc | discriminate | reflexivity].
  - exact Hf.
  - destruct (missing_config_400 reject_strings world_no_region [] PNone PNone [])
      as (_ & _ & F).
    exact (F _ _ Hf).
Defined.

(** ** C8: an empty configuration variable *)

(** C8 (counterexample). [WEATHER_API_KEY] set to the empty string, and
    no AWS region: 500, not 400. *)
Lemma empty_key_no_region_500 :
  fst (lambda_handler reject_strings world_no_region
         [("WEATHER_API_KEY", ""); ("S3_BUCKET_NAME", "b")] PNone PNone []) =
  Ok (mkresponse 500 (BodyFatal fatal_label "You must specify a region."
                        "2024-03-05T10:00:00")).
Proof. vm_compute. reflexivity. Qed.

(** C8 (amended). An empty [WEATHER_API_KEY] or [S3_BUCKET_NAME] is handled
    exactly as an absent one, whatever the services do; once the clients
    are constructed, it gives status 400 with the variable's message, the
    key being checked first (an empty key wins over any bucket value). If
    a client construction fails, the handler answers status 500 with the
    fixed label, the exception's message and the current instant, as it
    does for an absent variable. *)
Theorem empty_config_is_missing ds w env ev ctx t :
  (clients_ok w t -> env_get env "WEATHER_API_KEY" = Some "" ->
   lambda_handler ds w env ev ctx t =
     (Ok (mkresponse 400 (BodyError missing_key_msg)), init_trace t)) /\
  (clients_ok w t -> truthy (env_get env "WEATHER_API_KEY") <> None ->
   env_get env "S3_BUCKET_NAME" = Some "" ->
   lambda_handler ds w env ev ctx t =
     (Ok (mkresponse 400 (BodyError missing_bucket_msg)), init_trace t)) /\
  (forall env', env_get env "WEATHER_API_KEY" = Some "" ->
   env_get env' "WEATHER_API_KEY" = None ->
   env_get env' "S3_BUCKET_NAME" = env_get env "S3_BUCKET_NAME" ->
   lambda_handler ds w env ev ctx t = lambda_handler ds w env' ev ctx t) /\
  (forall env', env_get env "S3_BUCKET_NAME" = Some "" ->
   env_get env' "S3_BUCKET_NAME" = None ->
   env_get env' "WEATHER_API_KEY" = env_get env "WEATHER_API_KEY" ->
   lambda_handler ds w env ev ctx t = lambda_handler ds w env' ev ctx t) /\
  (forall e t1, clients_fail w t e t1 ->
   (env_get env "WEATHER_API_KEY" = Some "" \/ env_get env "S3_BUCKET_NAME" = Some "") ->
   lambda_handler ds w env ev ctx t =
     (Ok (mkresponse 500 (BodyFatal fatal_label e (isoformat (w_now w t1)))),
      EvNow (w_now w t1) :: t1)).
Proof.
  split; [|split; [|split; [|split]]].
  - intros Hc Hk. apply lambda_handler_ok, handler_body_missing_key; auto.
    rewrite Hk; reflexivity.
  - intros Hc Hk Hb. destruct (truthy (env_get env "WEATHER_API_KEY")) as [k|] eqn:Ek;
      [|congruence].
    apply lambda_handler_ok. apply (handler_body_missing_bucket _ _ _ _ k); auto.
    rewrite Hb; reflexivity.
  - intros env' Hk Hk' Hb. unfold lambda_handler.
    rewrite (handler_body_env_ext ds w env env'); [reflexivity | |].
    + rewrite Hk, Hk'; reflexivity.
    + rewrite Hb; reflexivity.
  - intros env' Hb Hb' Hk. unfold lambda_handler.
    rewrite (handler_body_env_ext ds w env env'); [reflexivity | |].
    + rewrite Hk; reflexivity.
    + rewrite Hb, Hb'; reflexivity.
  - intros e t1 Hf _. apply lambda_handler_clients_fail; exact Hf.
Qed.

Lemma empty_config_is_missing_witness :
  lambda_handler reject_strings (world_ok JNull)
    [("WEATHER_API_KEY", ""); ("S3_BUCKET_NAME", "")] PNone PNone [] =
    (Ok (mkresponse 400 (BodyError missing_key_msg)), init_trace []) /\
  lambda_handler reject_strings (world_ok JNull)
    [("WEATHER_API_KEY", "k"); ("S3_BUCKET_NAME", "")] PNone PNone [] =
    (Ok (mkresponse 400 (BodyError missing_bucket_msg)), init_trace []) /\
  lambda_handler reject_strings (world_no_region)
    [("WEATHER_API_KEY", ""); ("S3_BUCKET_NAME", "b")] PNone PNone [] =
  lambda_handler reject_strings (world_no_region)
    [("S3_BUCKET_NAME", "b")] PNone PNone [] /\
  lambda_handler reject_strings (world_no_region)
    [("WEATHER_API_KEY", "k"); ("S3_BUCKET_NAME", "")] PNone PNone [] =
  lambda_handler reject_strings (world_no_region)
    [("WEATHER_API_KEY", "k")] PNone PNone [] /\
  lambda_handler reject_strings world_no_region
    [("WEATHER_API_KEY", ""); ("S3_BUCKET_NAME", "b")] PNone PNone [] =
    (Ok (mkresponse 500 (BodyFatal fatal_label "You must specify a region."
                           "2024-03-05T10:00:00")),
     [EvNow clock0; EvInit DynamoDBResource; EvInit S3Client]).
Proof.
  assert (Hc : clients_ok (world_ok JNull) []) by (repeat split).
  assert (Hf : clients_fail world_no_region [] "You must specify a region."
                 [EvInit DynamoDBResource; EvInit S3Client])
    by (right; left; repeat split).
  split; [|split; [|split; [|split]]].
  - destruct (empty_config_is_missing reject_strings (world_ok JNull)
      [("WEATHER_API_KEY", ""); ("S3_BUCKET_NAME", "")] PNone PNone []) as (A & _).
    apply A; [exact Hc | reflexivity].
  - destruct (empty_config_is_missing reject_strings (world_ok JNull)
      [("WEATHER_API_KEY", "k"); ("S3_BUCKET_NAME", "")] PNone PNone []) as (_ & B & _).
    apply B; [exact Hc | discriminate | reflexivity].
  - destruct (empty_config_is_missing reject_strings world_no_region
      [("WEATHER_API_KEY", ""); ("S3_BUCKET_NAME", "b")] PNone PNone []) as (_ & _ & C & _).
    apply C; reflexivity.
  - destruct (empty_config_is_missing reject_strings world_no_region
      [("WEATHER_API_KEY", "k"); ("S3_BUCKET_NAME", "")] PNone PNone []) as (_ & _ & _ & D & _).
    apply D; reflexivity.
  - destruct (empty_config_is_missing reject_strings world_no_region
      [("WEATHER_API_KEY", ""); ("S3_BUCKET_NAME", "b")] PNone PNone [])
      as (_ & _ & _ & _ & F).
    exact (F _ _ Hf (or_introl eq_refl)).
Defined.

(** ** The status-200 path *)

Lemma city_pairs_display : map snd city_pairs = city_display.
Proof. reflexivity. Qed.

(** C10. Every status-200 response reports 4 processed cities and lists
    exactly one result per configured city, in the order Pretoria, Cape
    Town, Johannesburg, Durban, each carrying that city's display name,
    whether it succeeded or failed. *)
Theorem status_200_results ds w env ev ctx t r t' :
  lambda_handler ds w env ev ctx t = (Ok r, t') ->
  statusCode r = 200 ->
  exists s rate et rs,
    body r = BodySummary "Weather data collection completed" 4 s rate et rs /\
    map result_city rs = city_display.
Proof.
  intros H Hs.
  destruct (clients_ok_or_fail w t) as [Hc | (e & t1 & Hf)].
  - destruct (truthy (env_get env "WEATHER_API_KEY")) as [k|] eqn:Hk.
    + destruct (truthy (env_get env "S3_BUCKET_NAME")) as [b|] eqn:Hb.
      * destruct (run_bodies ds w k b city_pairs (init_trace t)) as [os t2] eqn:Hr.
        rewrite (lambda_handler_ok _ _ _ _ _ _ _ _
                   (handler_body_200 _ _ _ _ _ _ _ _ Hc Hk Hb Hr)) in H.
        pose proof (results_of_cities _ _ _ _ _ _ _ _ Hr) as Hm.
        inversion H; subst.
        do 4 eexists. split; [reflexivity|]. exact Hm.
      * rewrite (lambda_handler_ok _ _ _ _ _ _ _ _
                   (handler_body_missing_bucket _ _ _ _ _ Hc Hk Hb)) in H.
        inversion H; subst; discriminate.
    + rewrite (lambda_handler_ok _ _ _ _ _ _ _ _
                 (handler_body_missing_key _ _ _ _ Hc Hk)) in H.
      inversion H; subst; discriminate.
  - rewrite (lambda_handler_fatal _ _ _ _ _ _ _ _
               (handler_body_clients_fail _ _ _ _ _ _ Hf)) in H.
    inversion H; subst; discriminate.
Qed.

Lemma status_200_results_witness :
  exists r t',
    lambda_handler reject_strings (world_ok (sample_payload (JFrac false 23456 (-3))))
      [("WEATHER_API_KEY", "k"); ("S3_BUCKET_NAME", "b")] PNone PNone [] = (Ok r, t') /\
    statusCode r = 200 /\
    exists s rate et rs,
      body r = BodySummary "Weather data collection completed" 4 s rate et rs /\
      map result_city rs = city_display.
Proof.
  destruct (lambda_handler reject_strings (world_ok (sample_payload (JFrac false 23456 (-3))))
      [("WEATHER_API_KEY", "k"); ("S3_BUCKET_NAME", "b")] PNone PNone []) as [[r|e] t'] eqn:E.
  - exists r, t'.
    assert (Hs : statusCode r = 200) by (vm_compute in E; inversion E; reflexivity).
    split; [reflexivity | split; [exact Hs|]].
    exact (status_200_results _ _ _ _ _ _ r t' E Hs).
  - vm_compute in E; discriminate.
Defined.

Lemma ex_app_cons {X} (x : X) (l s : list X) :
  (exists pre, l = (pre ++ s)%list) -> exists pre, x :: l = (pre ++ s)%list.
Proof. intros [pre ->]. exists (x :: pre). reflexivity. Qed.

Lemma ex_app_nil {X} (s : list X) : exists pre, s = (pre ++ s)%list.
Proof. exists []. reflexivity. Qed.

Ltac trace_prefix := repeat first [apply ex_app_nil | apply ex_app_cons].

Lemma city_body_trace ds w k b c d t o t1 :
  city_body ds w k b c d t = (o, t1) ->
  exists pre, t1 = (pre ++ EvHttpGet (api_url c k) :: t)%list.
Proof.
  unfold city_body, bind, lift, ret, urlopen_json, now, s3_put_object,
    table_put_item, call.
  step_M; intros H; inversion H; subst; trace_prefix.
Qed.

Lemma city_body_http_raises ds w k b c d t e :
  w_http w t (api_url c k) = FetchRaises e ->
  city_body ds w k b c d t = (Raise e, EvHttpGet (api_url c k) :: t).
Proof.
  intros H. unfold city_body, bind, urlopen_json. rewrite H. reflexivity.
Qed.

Lemma run_bodies_trace ds w k b cs t os t' :
  run_bodies ds w k b cs t = (os, t') ->
  (exists pre, t' = (pre ++ t)%list) /\
  (forall c d, In (c, d) cs -> In (EvHttpGet (api_url c k)) t').
Proof.
  revert t os. induction cs as [|[c d] cs IH]; simpl; intros t os H.
  - inversion H; subst. split; [apply ex_app_nil | tauto].
  - destruct (city_body ds w k b c d t) as [o t1] eqn:Eb.
    destruct (run_bodies ds w k b cs t1) as [os1 t2] eqn:E.
    inversion H; subst.
    destruct (city_body_trace _ _ _ _ _ _ _ _ _ Eb) as [pre1 ->].
    destruct (IH _ _ E) as [[pre2 ->] Hin].
    split.
    + exists (pre2 ++ pre1 ++ [EvHttpGet (api_url c k)])%list.
      rewrite <- !app_assoc. reflexivity.
    + intros c' d' [Heq | Hin'].
      * inversion Heq; subst. apply in_or_app; right.
        apply in_or_app; right. left; reflexivity.
      * exact (Hin _ _ Hin').
Qed.

Lemma run_bodies_counts ds w k b cs t os t' :
  run_bodies ds w k b cs t = (os, t') ->
  count_success (results_of cs os) + count_raised os = Z.of_nat (List.length cs).
Proof.
  unfold count_success, count_raised.
  revert t os. induction cs as [|[c d] cs IH]; intros t os H; cbn [run_bodies] in H.
  - inversion H; subst. reflexivity.
  - destruct (city_body ds w k b c d t) as [o t1] eqn:Eb.
    destruct (run_bodies ds w k b cs t1) as [os1 t2] eqn:E.
    inversion H; subst.
    specialize (IH _ _ E).
    destruct o as [r|e].
    + destruct (city_body_success _ _ _ _ _ _ _ _ _ Eb) as (ts & temp & ->).
      cbn [results_of outcome_result filter is_success is_raise List.length].
      lia.
    + cbn [results_of outcome_result filter is_success is_raise List.length].
      lia.
Qed.

Lemma forallb_filter {X} (f : X -> bool) l : forallb f l = true -> filter f l = l.
Proof.
  induction l as [|x l IH]; simpl; [reflexivity|].
  intros H. apply andb_true_iff in H as [Hx Hl]. rewrite Hx, IH; auto.
Qed.

(** C4. When the configuration checks pass, the handler returns status
    200 with the message, 4 processed cities, the number of successful
    ones, the success rate [successes / 4 * 100] to one decimal place
    followed by "%", the instant read from the clock, and the ordered list
    of the per-city results; when every city succeeds, that is 4
    successful cities and "100.0%". *)
Theorem summary_200 ds w env ev ctx t k b :
  clients_ok w t ->
  truthy (env_get env "WEATHER_API_KEY") = Some k ->
  truthy (env_get env "S3_BUCKET_NAME") = Some b ->
  exists rs t2,
    map result_city rs = city_display /\
    lambda_handler ds w env ev ctx t =
      (Ok (mkresponse 200
             (BodySummary "Weather data collection completed" 4
                (count_success rs) (rate_spec (count_success rs) 4)
                (isoformat (w_now w t2)) rs)),
       EvNow (w_now w t2) :: t2) /\
    (forallb is_success rs = true ->
     count_success rs = 4 /\ rate_spec (count_success rs) 4 = "100.0%").
Proof.
  intros Hc Hk Hb.
  destruct (run_bodies ds w k b city_pairs (init_trace t)) as [os t2] eqn:Hr.
  exists (results_of city_pairs os), t2.
  pose proof (results_of_cities _ _ _ _ _ _ _ _ Hr) as Hm.
  split; [exact Hm|]. split.
  - apply lambda_handler_ok. exact (handler_body_200 _ _ _ _ _ _ _ _ Hc Hk Hb Hr).
  - intros Hall. unfold count_success. rewrite (forallb_filter _ _ Hall).
    assert (Hl : List.length (results_of city_pairs os) = 4%nat).
    { rewrite <- (length_map result_city), Hm. reflexivity. }
    rewrite Hl. split; reflexivity.
Qed.

Lemma summary_200_witness :
  let w := world_ok (sample_payload (JFrac false 23456 (-3))) in
  clients_ok w [] /\
  truthy (env_get env_kb "WEATHER_API_KEY") = Some "k" /\
  truthy (env_get env_kb "S3_BUCKET_NAME") = Some "b" /\
  exists rs t2,
    map result_city rs = city_display /\
    lambda_handler reject_strings w env_kb PNone PNone [] =
      (Ok (mkresponse 200
             (BodySummary "Weather data collection completed" 4
                (count_success rs) (rate_spec (count_success rs) 4)
                (isoformat (w_now w t2)) rs)),
       EvNow (w_now w t2) :: t2) /\
    (forallb is_success rs = true ->
     count_success rs = 4 /\ rate_spec (count_success rs) 4 = "100.0%").
Proof.
  intros w.
  assert (Hc : clients_ok w []) by (repeat split).
  split; [exact Hc|]. split; [reflexivity|]. split; [reflexivity|].
  exact (summary_200 reject_strings w env_kb PNone PNone [] "k" "b" Hc eq_refl eq_refl).
Defined.

(** ** C1: per-city isolation *)

(** C1. When the configuration checks pass, the four per-city [try]
    blocks all run, one after the other, whatever the earlier ones did:
    a block that raises (a failed or non-2xx request, malformed JSON, a
    missing field, a failed write) becomes [CityError city message] with
    that exception's message, the others keep their result, a request to
    the API is made for every city, and the handler still returns status
    200 with the summary of the four results. A city whose request raises
    raises with that message; if exactly one city raises, the summary has
    3 successful cities and the rate "75.0%". *)
Theorem per_city_isolation ds w env ev ctx t k b :
  clients_ok w t ->
  truthy (env_get env "WEATHER_API_KEY") = Some k ->
  truthy (env_get env "S3_BUCKET_NAME") = Some b ->
  exists os t2,
    run_bodies ds w k b city_pairs (init_trace t) = (os, t2) /\
    lambda_handler ds w env ev ctx t =
      (Ok (mkresponse 200
             (BodySummary "Weather data collection completed" 4
                (count_success (results_of city_pairs os))
                (rate_spec (count_success (results_of city_pairs os)) 4)
                (isoformat (w_now w t2)) (results_of city_pairs os))),
       EvNow (w_now w t2) :: t2) /\
    (forall c, In c cities -> In (EvHttpGet (api_url c k)) t2) /\
    (forall c d t0 e, w_http w t0 (api_url c k) = FetchRaises e ->
       city_body ds w k b c d t0 = (Raise e, EvHttpGet (api_url c k) :: t0)) /\
    (count_raised os = 1 ->
     count_success (results_of city_pairs os) = 3 /\
     rate_spec (count_success (results_of city_pairs os)) 4 = "75.0%").
Proof.
  intros Hc Hk Hb.
  destruct (run_bodies ds w k b city_pairs (init_trace t)) as [os t2] eqn:Hr.
  exists os, t2. split; [reflexivity|]. split.
  - apply lambda_handler_ok. exact (handler_body_200 _ _ _ _ _ _ _ _ Hc Hk Hb Hr).
  - split; [|split].
    + intros c Hin. destruct (run_bodies_trace _ _ _ _ _ _ _ _ Hr) as [_ Hall].
      simpl in Hin.
      destruct Hin as [<-|[<-|[<-|[<-|[]]]]];
        eapply Hall; simpl; eauto 6.
    + intros c d t0 e He. apply city_body_http_raises; exact He.
    + intros H1. pose proof (run_bodies_counts _ _ _ _ _ _ _ _ Hr) as Hn.
      change (Z.of_nat (List.length city_pairs)) with 4 in Hn.
      assert (H3 : count_success (results_of city_pairs os) = 3) by lia.
      rewrite H3. split; reflexivity.
Qed.

Lemma per_city_isolation_witness :
  let w := world_one_down in
  clients_ok w [] /\
  truthy (env_get env_kb "WEATHER_API_KEY") = Some "k" /\
  truthy (env_get env_kb "S3_BUCKET_NAME") = Some "b" /\
  exists os t2,
    run_bodies reject_strings w "k" "b" city_pairs (init_trace []) = (os, t2) /\
    lambda_handler reject_strings w env_kb PNone PNone [] =
      (Ok (mkresponse 200
             (BodySummary "Weather data collection completed" 4
                (count_success (results_of city_pairs os))
                (rate_spec (count_success (results_of city_pairs os)) 4)
                (isoformat (w_now w t2)) (results_of city_pairs os))),
       EvNow (w_now w t2) :: t2) /\
    (forall c, In c cities -> In (EvHttpGet (api_url c "k")) t2) /\
    (forall c d t0 e, w_http w t0 (api_url c "k") = FetchRaises e ->
       city_body reject_strings w "k" "b" c d t0 = (Raise e, EvHttpGet (api_url c "k") :: t0)) /\
    (count_raised os = 1 ->
     count_success (results_of city_pairs os) = 3 /\
     rate_spec (count_success (results_of city_pairs os)) 4 = "75.0%").
Proof.
  intros w.
  assert (Hc : clients_ok w []) by (repeat split).
  split; [exact Hc|]. split; [reflexivity|]. split; [reflexivity|].
  exact (per_city_isolation reject_strings w env_kb PNone PNone [] "k" "b" Hc eq_refl eq_refl).
Defined.

Example one_city_down :
  fst (lambda_handler reject_strings world_one_down env_kb PNone PNone []) =
  Ok (mkresponse 200
        (BodySummary "Weather data collection completed" 4 3 "75.0%"
           "2024-03-05T10:00:00"
           [CitySuccess "Pretoria" "2024-03-05T10:00:00"
              (PFloat (round_binary64 false 23456 1000));
            CitySuccess "Cape Town" "2024-03-05T10:00:00"
              (PFloat (round_binary64 false 23456 1000));
            CityError "Johannesburg"
              "<urlopen error [Errno -3] Temporary failure in name resolution>";
            CitySuccess "Durban" "2024-03-05T10:00:00"
              (PFloat (round_binary64 false 23456 1000))])).
Proof. vm_compute. reflexivity. Qed.

(** ** C9: a success is recorded only after both writes *)

Ltac close_trace_goal :=
  repeat split; intros;
  repeat match goal with
         | H : exists _, _ |- _ => destruct H as (? & H)
         | H : _ /\ _ |- _ => destruct H
         end;
  repeat match goal with
         | Heq : _ :: _ = _ :: _ |- _ => injection Heq; clear Heq; intros; subst
         end;
  try discriminate; try congruence;
  try (do 3 eexists; split; [reflexivity | split; eassumption]).

(** C9. For every city, its result is a success exactly when the trace
    ends with the S3 write followed by the DynamoDB write and both
    returned normally; if the S3 write raises, or it succeeds and the
    DynamoDB write raises, the result is an error with that message, and
    the S3 write stays in the history (nothing is undone). *)
Theorem success_after_both_writes ds w k b c d t r t' :
  process_city ds w k b c d t = (Ok r, t') ->
  (is_success r = true <->
   exists item req t2,
     t' = EvDdbPut item :: EvS3Put req :: t2 /\
     w_s3_put w t2 req = None /\ w_ddb_put w (EvS3Put req :: t2) item = None) /\
  (forall req t2 e,
     t' = EvS3Put req :: t2 -> w_s3_put w t2 req = Some e ->
     r = CityError d e) /\
  (forall item req t2 e,
     t' = EvDdbPut item :: EvS3Put req :: t2 ->
     w_s3_put w t2 req = None -> w_ddb_put w (EvS3Put req :: t2) item = Some e ->
     r = CityError d e).
Proof.
  unfold process_city, try_except, city_body, bind, lift, ret, urlopen_json, now,
    s3_put_object, table_put_item, call.
  step_M; intros H; inversion H; subst; close_trace_goal.
Qed.

Lemma success_after_both_writes_witness :
  exists r t',
    process_city reject_strings (world_ok (sample_payload (JFrac false 23456 (-3))))
      "k" "b" "Pretoria" "Pretoria" [] = (Ok r, t') /\
    (is_success r = true <->
     exists item req t2,
       t' = EvDdbPut item :: EvS3Put req :: t2 /\
       w_s3_put (world_ok (sample_payload (JFrac false 23456 (-3)))) t2 req = None /\
       w_ddb_put (world_ok (sample_payload (JFrac false 23456 (-3))))
         (EvS3Put req :: t2) item = None) /\
    (forall req t2 e,
       t' = EvS3Put req :: t2 ->
       w_s3_put (world_ok (sample_payload (JFrac false 23456 (-3)))) t2 req = Some e ->
       r = CityError "Pretoria" e) /\
    (forall item req t2 e,
       t' = EvDdbPut item :: EvS3Put req :: t2 ->
       w_s3_put (world_ok (sample_payload (JFrac false 23456 (-3)))) t2 req = None ->
       w_ddb_put (world_ok (sample_payload (JFrac false 23456 (-3))))
         (EvS3Put req :: t2) item = Some e ->
       r = CityError "Pretoria" e).
Proof.
  destruct (process_city reject_strings (world_ok (sample_payload (JFrac false 23456 (-3))))
      "k" "b" "Pretoria" "Pretoria" []) as [[r|e] t'] eqn:E.
  - exists r, t'. split; [reflexivity|].
    exact (success_after_both_writes _ _ _ _ _ _ _ r t' E).
  - vm_compute in E; discriminate.
Defined.

(** ** C6: the S3 key *)

Example cape_town_key :
  s3_keys (snd (process_city reject_strings
                  (world_ok (sample_payload (JFrac false 23456 (-3))))
                  "k" "b" "Cape%20Town" "Cape Town" [])) =
  ["raw-data/Cape_Town/2024/03/05/2024-03-05T10:00:00.json"].
Proof. vm_compute. reflexivity. Qed.

(** C6 (failing input). The date segment of the key comes from a second
    clock reading, taken after the one that gives the timestamp: when the
    two readings fall on either side of midnight, Cape Town's observation
    collected at 2024-03-05T23:59:59.999999 is stored under the date
    2024/03/06. *)
Theorem s3_key_date_from_second_clock_read :
  s3_keys (snd (process_city reject_strings world_midnight
                  "k" "b" "Cape%20Town" "Cape Town" [])) =
  ["raw-data/Cape_Town/2024/03/06/2024-03-05T23:59:59.999999.json"].
Proof. vm_compute. reflexivity. Qed.

(** ** C5, C7: the numeric attributes of the item *)

Lemma dict_get_set d k v k' :
  dict_get (dict_set d k v) k' = if String.eqb k' k then Some v else dict_get d k'.
Proof.
  induction d as [|[k1 v1] d IH]; simpl.
  - reflexivity.
  - destruct (String.eqb_spec k k1) as [->|Hne]; simpl.
    + destruct (String.eqb k' k1); reflexivity.
    + rewrite IH.
      destruct (String.eqb_spec k' k1), (String.eqb_spec k' k); subst;
        congruence || reflexivity.
Qed.

Lemma build_dict_get d kvs d' k :
  build_dict d kvs = Ok d' ->
  match last_lookup kvs k with
  | Some r => exists v, r = Ok v /\ dict_get d' k = Some v
  | None => dict_get d' k = dict_get d k
  end.
Proof.
  revert d. induction kvs as [|[k1 [v1|e1]] kvs IH]; intros d H; simpl in *.
  - inversion H; reflexivity.
  - specialize (IH _ H). destruct (last_lookup kvs k) as [r|].
    + exact IH.
    + rewrite IH, dict_get_set. destruct (String.eqb k k1); eauto.
  - discriminate.
Qed.

Lemma last_lookup_map {X Y} (f : X -> Y) kvs k :
  last_lookup (map (fun '(k', x) => (k', f x)) kvs) k = option_map f (last_lookup kvs k).
Proof.
  induction kvs as [|[k1 x1] kvs IH]; simpl; [reflexivity|].
  rewrite IH. destruct (last_lookup kvs k); simpl; [reflexivity|].
  destruct (String.eqb k k1); reflexivity.
Qed.

Lemma json_loads_get j v k x :
  json_loads j = Ok v -> json_get j k = Some x ->
  exists px, json_loads x = Ok px /\ py_getitem v k = Ok px.
Proof.
  destruct j as [| | | | |kvs]; simpl; try discriminate. intros H Hg.
  destruct (build_dict [] _) as [d|e] eqn:Eb; simpl in H; [|discriminate].
  inversion H; subst.
  pose proof (build_dict_get _ _ _ k Eb) as Hd.
  rewrite last_lookup_map, Hg in Hd. simpl in Hd.
  destruct Hd as (px & Hx & Hget). exists px. split; [exact Hx|].
  simpl. rewrite Hget. reflexivity.
Qed.

Lemma json_loads_path p : forall j v x,
  json_loads j = Ok v -> json_at j p = Some x ->
  exists px, json_loads x = Ok px /\ py_path v p = Ok px.
Proof.
  induction p as [|k p IH]; intros j v x H Ha; simpl in *.
  - inversion Ha; subst. eauto.
  - destruct (json_get j k) as [y|] eqn:Eg; [|discriminate].
    destruct (json_loads_get _ _ _ _ H Eg) as (py & Hy & Hgi).
    rewrite Hgi. simpl. eapply IH; eauto.
Qed.

Lemma py_setitem_path v k x v' k0 p :
  py_setitem v k x = Ok v' -> k0 <> k -> py_path v' (k0 :: p) = py_path v (k0 :: p).
Proof.
  destruct v; simpl; try discriminate. intros H Hne. inversion H; subst.
  simpl. rewrite dict_get_set. destruct (String.eqb_spec k0 k); [contradiction|reflexivity].
Qed.

Lemma py_path_get v k x dflt : py_path v [k] = Ok x -> py_get v k dflt = Ok x.
Proof.
  destruct v as [| | | | | |d]; simpl; try discriminate.
  destruct (dict_get d k); simpl; congruence.
Qed.

Lemma loads_number_decimal ds n v :
  loads_number n = Ok v -> Decimal_str ds v = Ok (stored_decimal n).
Proof.
  unfold loads_number, Decimal_str, stored_decimal. destruct n as [z| | |].
  - destruct (int_max_str_digits <? ndigits (Z.abs z)) eqn:E; intros H; inversion H; subst.
    rewrite E. reflexivity.
  - intros H; inversion H; reflexivity.
  - intros H; inversion H; reflexivity.
  - intros H; inversion H; reflexivity.
Qed.

Lemma build_item_numeric ds dn ts data item :
  build_item ds dn ts data = Ok item ->
  forall f p v, In (f, p) numeric_fields -> py_path data p = Ok v ->
  exists dec, Decimal_str ds v = Ok dec /\ item_get item f = Some (ANum dec).
Proof.
  unfold build_item, rbind. step_M; intros H; inversion H; subst; clear H.
  intros f p v Hin Hp. simpl in Hin.
  repeat (destruct Hin as [Hin|Hin]; [injection Hin as <- <-|]); [..|contradiction].
  all: try (apply (py_path_get _ _ _ (PInt 0)) in Hp; rewrite E13 in Hp).
  all: cbn [py_path] in Hp;
    repeat match goal with
           | E : ?x = Ok _, Hp : context [rbind ?x _] |- _ =>
               rewrite E in Hp; cbn [rbind] in Hp
           end;
    inversion Hp; subst; eexists; split; [eassumption | reflexivity].
Qed.

Lemma py_getitem_get v k x dflt : py_getitem v k = Ok x -> py_get v k dflt = Ok x.
Proof.
  destruct v as [| | | | | |d]; simpl; try discriminate.
  destruct (dict_get d k); congruence.
Qed.

Lemma py_getitem_dict v k x : py_getitem v k = Ok x -> exists d, v = PDict d.
Proof. destruct v as [| | | | | |d]; simpl; try discriminate; eauto. Qed.

Lemma py_setitem_getitem v k x v' k0 :
  py_setitem v k x = Ok v' -> k0 <> k -> py_getitem v' k0 = py_getitem v k0.
Proof.
  destruct v as [| | | | | |d]; simpl; try discriminate. intros H Hne.
  inversion H; subst. simpl. rewrite dict_get_set.
  destruct (String.eqb_spec k0 k); [contradiction|reflexivity].
Qed.

Lemma py_setitem_get v k x v' k0 dflt :
  py_setitem v k x = Ok v' -> k0 <> k -> py_get v' k0 dflt = py_get v k0 dflt.
Proof.
  destruct v as [| | | | | |d]; simpl; try discriminate. intros H Hne.
  inversion H; subst. simpl. rewrite dict_get_set.
  destruct (String.eqb_spec k0 k); [contradiction|reflexivity].
Qed.

Lemma json_loads_get_none j d k :
  json_loads j = Ok (PDict d) -> json_get j k = None -> dict_get d k = None.
Proof.
  destruct j as [| | n | | l |kvs]; simpl; intros H Hg; try discriminate.
  - destruct n as [z| | |]; unfold loads_number in H; try discriminate.
    destruct (int_max_str_digits <? ndigits (Z.abs z)); discriminate.
  - destruct (collect _); simpl in H; discriminate.
  - destruct (build_dict [] _) as [d'|e] eqn:Eb; simpl in H; [|discriminate].
    inversion H; subst.
    pose proof (build_dict_get _ _ _ k Eb) as Hd.
    rewrite last_lookup_map, Hg in Hd. exact Hd.
Qed.

Section Item_ok.

Variables (ds : string -> result decimal) (dn ts : string) (data : pyval).
Variables (main weather0 wind clouds sys : pyval) (ws : list pyval).
Variables (temp hum pres cond descr speed vis cl country sr ss : pyval).
Variables (dtemp dhum dpres dspeed dvis dcl dsr dss : decimal).
Hypotheses (Hmain : py_getitem data "main" = Ok main)
  (Htemp : py_getitem main "temp" = Ok temp) (Dtemp : Decimal_str ds temp = Ok dtemp)
  (Hhum : py_getitem main "humidity" = Ok hum) (Dhum : Decimal_str ds hum = Ok dhum)
  (Hpres : py_getitem main "pressure" = Ok pres) (Dpres : Decimal_str ds pres = Ok dpres)
  (Hweather : py_getitem data "weather" = Ok (PList (weather0 :: ws)))
  (Hcond : py_getitem weather0 "main" = Ok cond)
  (Hdescr : py_getitem weather0 "description" = Ok descr)
  (Hwind : py_getitem data "wind" = Ok wind)
  (Hspeed : py_getitem wind "speed" = Ok speed) (Dspeed : Decimal_str ds speed = Ok dspeed)
  (Hvis : py_get data "visibility" (PInt 0) = Ok vis) (Dvis : Decimal_str ds vis = Ok dvis)
  (Hclouds : py_getitem data "clouds" = Ok clouds)
  (Hcl : py_getitem clouds "all" = Ok cl) (Dcl : Decimal_str ds cl = Ok dcl)
  (Hsys : py_getitem data "sys" = Ok sys)
  (Hcountry : py_getitem sys "country" = Ok country)
  (Hsr : py_getitem sys "sunrise" = Ok sr) (Dsr : Decimal_str ds sr = Ok dsr)
  (Hss : py_getitem sys "sunset" = Ok ss) (Dss : Decimal_str ds ss = Ok dss).

Lemma build_item_ok :
  exists item, build_item ds dn ts data = Ok item /\
               item_get item "visibility" = Some (ANum dvis).
Proof.
  unfold build_item, rbind.
  rewrite Hmain, Htemp, Dtemp, Hhum, Dhum, Hpres, Dpres, Hweather; cbn [py_getitem0].
  rewrite Hcond, Hdescr, Hwind, Hspeed, Dspeed, Hvis, Dvis, Hclouds, Hcl, Dcl, Hsys,
    Hcountry, Hsr, Dsr, Hss, Dss.
  eexists. split; reflexivity.
Qed.

End Item_ok.

(** C5 (amended). When a city is processed successfully, every numeric
    attribute of the item written to DynamoDB (temperature, humidity,
    pressure, wind_speed, visibility, cloudiness, sunrise, sunset) whose
    payload value is the JSON number [n] holds [stored_decimal n]: the
    [Decimal] of [str] of the value [json.loads] made of [n]. An integer
    keeps its exact digits; a number with a fraction or an exponent is
    first rounded to the nearest binary64 float, and [Decimal] of its
    [str] (the shortest repr, [25.0] keeping its [".0"]) is what is
    stored. *)
Theorem numeric_fields_stored ds w k b c d t r t' :
  process_city ds w k b c d t = (Ok r, t') -> is_success r = true ->
  exists j item t2,
    w_http w t (api_url c k) = FetchJson j /\ t' = EvDdbPut item :: t2 /\
    (forall f p n, In (f, p) numeric_fields -> json_at j p = Some (JNumber n) ->
       item_get item f = Some (ANum (stored_decimal n))).
Proof.
  intros H Hs.
  destruct (city_body ds w k b c d t) as [o t1] eqn:Eb.
  rewrite (process_city_eq _ _ _ _ _ _ _ _ _ Eb) in H. injection H as Hr Ht; subst t1.
  destruct o as [r'|e]; simpl in Hr; [subst r'|subst r; discriminate].
  revert Eb.
  unfold city_body, bind, lift, ret, urlopen_json, now, s3_put_object,
    table_put_item, call.
  step_M; intros Eb; inversion Eb; subst; clear Eb.
  do 3 eexists. split; [reflexivity | split; [reflexivity |]].
  intros f p n Hin Ha.
  destruct (json_loads_path _ _ _ _ E0 Ha) as (px & Hx & Hp).
  cbn [json_loads] in Hx. apply (loads_number_decimal ds) in Hx.
  assert (Hp2 : py_path a3 p = Ok px).
  { pose proof Hin as Hin'. simpl in Hin'.
    repeat (destruct Hin' as [Hin'|Hin']; [injection Hin' as <- <-|]); [..|contradiction].
    all: rewrite (py_setitem_path _ _ _ _ _ _ E4), (py_setitem_path _ _ _ _ _ _ E3)
           by discriminate; exact Hp. }
  destruct (build_item_numeric _ _ _ _ _ E6 f p px Hin Hp2) as (dec & Hd & Hg).
  rewrite Hx in Hd. injection Hd as <-. exact Hg.
Qed.

Ltac decomp_path H :=
  repeat (cbn [py_path] in H;
    match type of H with
    | rbind (py_getitem ?v ?k) _ = _ =>
        first
          [ match goal with G : py_getitem v k = Ok _ |- _ => rewrite G in H end
          | let x := fresh "x" in let G := fresh "G" in
            destruct (py_getitem v k) as [x|] eqn:G; [|discriminate H] ];
        cbn [rbind] in H
    end);
  cbn [py_path] in H; injection H as <-.

(** C7. If the payload has no [visibility] key but decodes and has every
    other field the item reads (numbers wherever a [Decimal] is built),
    and both writes succeed, the city is processed successfully and the
    item stores [visibility] as the decimal 0. *)
Theorem missing_visibility_zero ds w k b c d t j :
  w_http w t (api_url c k) = FetchJson j ->
  json_get j "visibility" = None ->
  expected_fields j = true ->
  (forall tr req, w_s3_put w tr req = None) ->
  (forall tr it, w_ddb_put w tr it = None) ->
  exists r item t2,
    process_city ds w k b c d t = (Ok r, EvDdbPut item :: t2) /\
    is_success r = true /\
    item_get item "visibility" = Some (ANum (DecFinite false 0 0)).
Proof.
  intros Hh Hv He Hs3 Hddb.
  unfold expected_fields, decodes in He. repeat rewrite andb_true_iff in He.
  repeat match goal with H : _ /\ _ |- _ => destruct H end.
  destruct (json_loads j) as [data|] eqn:Ej; [|discriminate].
  repeat match goal with
  | H : is_number (json_at j ?p) = true |- _ =>
      let n := fresh "n" in let Ha := fresh "Ha" in
      destruct (json_at j p) as [[| | n | | |]|] eqn:Ha; simpl in H; try discriminate H;
      clear H;
      let px := fresh "px" in let Hx := fresh "Hx" in let Hp := fresh "Hp" in
      destruct (json_loads_path _ _ _ _ Ej Ha) as (px & Hx & Hp);
      cbn [json_loads] in Hx; apply (loads_number_decimal ds) in Hx;
      decomp_path Hp
  end.
  destruct (json_at j ["sys"; "country"]) as [y|] eqn:Hc; [clear H2|discriminate H2].
  destruct (json_loads_path _ _ _ _ Ej Hc) as (pc & _ & Hpc). decomp_path Hpc.
  destruct (json_at j ["weather"]) as [[| | | | [|w0 l] |]|] eqn:Hw; try discriminate H5.
  rewrite andb_true_iff in H5. destruct H5 as [Hwm Hwd].
  destruct (json_loads_path _ _ _ _ Ej Hw) as (pw & Hxw & Hpw). decomp_path Hpw.
  cbn [json_loads map collect] in Hxw.
  destruct (json_loads w0) as [px0|] eqn:Ex; [|discriminate Hxw].
  destruct (collect (map json_loads l)) as [vs|]; cbn [rbind] in Hxw; [|discriminate Hxw].
  injection Hxw as <-.
  destruct (json_get w0 "main") as [ym|] eqn:Hym; [|discriminate Hwm].
  destruct (json_get w0 "description") as [yd|] eqn:Hyd; [|discriminate Hwd].
  destruct (json_loads_get _ _ _ _ Ex Hym) as (pm & _ & Hpm).
  destruct (json_loads_get _ _ _ _ Ex Hyd) as (pd & _ & Hpd).
  destruct (py_getitem_dict _ _ _ G6) as [dd ->].
  pose proof (json_loads_get_none _ _ _ Ej Hv) as Hnv.
  unfold process_city, try_except, city_body, bind, lift, ret, urlopen_json, now,
    s3_put_object, table_put_item, call.
  cbv beta iota zeta. rewrite Hh. cbv beta iota zeta. rewrite Ej.
  cbv beta iota zeta.
  rewrite (py_getitem_get _ _ _ _ G6), (py_getitem_get _ _ _ _ G9).
  cbn [py_setitem]. cbv beta iota zeta. rewrite Hs3. cbv beta iota zeta.
  generalize (isoformat (w_now w (EvHttpGet (api_url c k) :: t))) as ts; intros ts.
  set (data2 := PDict (dict_set (dict_set dd "timestamp" (PStr ts)) "city" (PStr d))).
  assert (Hs1 : py_setitem (PDict dd) "timestamp" (PStr ts) =
                Ok (PDict (dict_set dd "timestamp" (PStr ts)))) by reflexivity.
  assert (Hs2 : py_setitem (PDict (dict_set dd "timestamp" (PStr ts))) "city" (PStr d) =
                Ok data2) by reflexivity.
  repeat match goal with
  | G : py_getitem (PDict dd) ?key = Ok ?v |- _ =>
      assert (py_getitem data2 key = Ok v)
        by (rewrite (py_setitem_getitem _ _ _ _ _ Hs2), (py_setitem_getitem _ _ _ _ _ Hs1)
              by discriminate; exact G);
      clear G
  end.
  assert (Hvis : py_get data2 "visibility" (PInt 0) = Ok (PInt 0)).
  { rewrite (py_setitem_get _ _ _ _ _ _ Hs2), (py_setitem_get _ _ _ _ _ _ Hs1)
      by discriminate.
    cbn [py_get]. rewrite Hnv. reflexivity. }
  assert (Dvis : Decimal_str ds (PInt 0) = Ok (DecFinite false 0 0)) by reflexivity.
  edestruct (build_item_ok ds d ts data2) as (item & Hitem & Hvi); try eassumption.
  rewrite Hitem. cbv beta iota zeta. rewrite Hddb. cbv beta iota zeta.
  do 3 eexists. split; [reflexivity | split; [reflexivity | exact Hvi]].
Qed.

Lemma missing_visibility_zero_witness :
  w_http (world_ok payload_no_visibility) [] (api_url "Durban" "k") =
    FetchJson payload_no_visibility /\
  json_get payload_no_visibility "visibility" = None /\
  expected_fields payload_no_visibility = true /\
  (forall tr req, w_s3_put (world_ok payload_no_visibility) tr req = None) /\
  (forall tr it, w_ddb_put (world_ok payload_no_visibility) tr it = None) /\
  exists r item t2,
    process_city reject_strings (world_ok payload_no_visibility) "k" "b" "Durban" "Durban" [] =
      (Ok r, EvDdbPut item :: t2) /\
    is_success r = true /\
    item_get item "visibility" = Some (ANum (DecFinite false 0 0)).
Proof.
  assert (H1 : w_http (world_ok payload_no_visibility) [] (api_url "Durban" "k") =
               FetchJson payload_no_visibility) by reflexivity.
  assert (H2 : json_get payload_no_visibility "visibility" = None) by reflexivity.
  assert (H3 : expected_fields payload_no_visibility = true) by (vm_compute; reflexivity).
  assert (H4 : forall tr req, w_s3_put (world_ok payload_no_visibility) tr req = None)
    by reflexivity.
  assert (H5 : forall tr it, w_ddb_put (world_ok payload_no_visibility) tr it = None)
    by reflexivity.
  repeat (split; [assumption|]).
  exact (missing_visibility_zero reject_strings (world_ok payload_no_visibility)
           "k" "b" "Durban" "Durban" [] payload_no_visibility H1 H2 H3 H4 H5).
Defined.

(** C5 (counterexample). A payload with ["temp": 0.100000000000000000001]
    is processed successfully, and the temperature stored is the decimal
    0.1, not the value of the payload's literal. *)
Lemma temp_literal_rounded :
  exists r item t2,
    process_city reject_strings
      (world_ok (sample_payload (JFrac false 100000000000000000001 (-21))))
      "k" "b" "Pretoria" "Pretoria" [] = (Ok r, EvDdbPut item :: t2) /\
    is_success r = true /\
    json_at (sample_payload (JFrac false 100000000000000000001 (-21))) ["main"; "temp"] =
      Some (JNumber (JFrac false 100000000000000000001 (-21))) /\
    item_get item "temperature" = Some (ANum (DecFinite false 1 (-1))) /\
    dec_value (DecFinite false 1 (-1)) = Some (1 # 10) /\
    jnumber_value (JFrac false 100000000000000000001 (-21)) =
      Some (100000000000000000001 # 1000000000000000000000) /\
    ~ (1 # 10 == 100000000000000000001 # 1000000000000000000000)%Q.
Proof.
  destruct (process_city reject_strings
      (world_ok (sample_payload (JFrac false 100000000000000000001 (-21))))
      "k" "b" "Pretoria" "Pretoria" []) as [[r|e] t'] eqn:E;
    [|vm_compute in E; discriminate].
  destruct t' as [|[| | | |item] t2]; try (vm_compute in E; discriminate).
  exists r, item, t2. split; [reflexivity|].
  vm_compute in E. injection E as <- <- <-.
  split; [reflexivity|]. split; [reflexivity|]. split; [vm_compute; reflexivity|].
  split; [reflexivity|]. split; [vm_compute; reflexivity|].
  vm_compute. discriminate.
Qed.

Lemma numeric_fields_stored_witness :
  exists r t',
    process_city reject_strings (world_ok (sample_payload (JFrac false 23456 (-3))))
      "k" "b" "Pretoria" "Pretoria" [] = (Ok r, t') /\
    is_success r = true /\
    (exists j item t2,
       w_http (world_ok (sample_payload (JFrac false 23456 (-3)))) []
         (api_url "Pretoria" "k") = FetchJson j /\
       t' = EvDdbPut item :: t2 /\
       (forall f p n, In (f, p) numeric_fields -> json_at j p = Some (JNumber n) ->
          item_get item f = Some (ANum (stored_decimal n)))) /\
    stored_decimal (JFrac false 23456 (-3)) = DecFinite false 23456 (-3).
Proof.
  destruct (process_city reject_strings (world_ok (sample_payload (JFrac false 23456 (-3))))
      "k" "b" "Pretoria" "Pretoria" []) as [[r|e] t'] eqn:E.
  - exists r, t'. split; [reflexivity|].
    assert (Hs : is_success r = true) by (vm_compute in E; inversion E; reflexivity).
    split; [exact Hs|]. split.
    + exact (numeric_fields_stored _ _ _ _ _ _ _ r t' E Hs).
    + vm_compute. reflexivity.
  - vm_compute in E; discriminate.
Defined.

(** The four layouts of [str(float)] and what [Decimal] makes of them:
    [25.0] keeps its [".0"] (coefficient 250, exponent -1), [1e23] and
    [2.0000000000000008e16] print in exponent form, [0.0001] in fixed form,
    [1e-05] in exponent form, and [-0.0] as ["-0.0"]. *)
Lemma stored_decimal_repr_layouts :
  stored_decimal (JFrac false 250 (-1)) = DecFinite false 250 (-1) /\
  stored_decimal (JFrac false 1 23) = DecFinite false 1 23 /\
  stored_decimal (JFrac false 20000000000000008 0) = DecFinite false 2000000000000001 1 /\
  stored_decimal (JFrac false 12345678901234560 (-1)) =
    DecFinite false 12345678901234560 (-1) /\
  stored_decimal (JFrac false 1 (-4)) = DecFinite false 1 (-4) /\
  stored_decimal (JFrac false 1 (-5)) = DecFinite false 1 (-5) /\
  stored_decimal (JFrac true 0 (-1)) = DecFinite true 0 (-1).
Proof. vm_compute. repeat split. Qed.

(** ** Further behaviour of the handler *)



(** A city whose request raises, or whose payload [json.loads] rejects,
    ends with that error as its result; the request is the only event
    it adds to the history: no clock reading and no storage write. *)
Theorem fetch_or_decode_failure ds w k b c d t e :
  (w_http w t (api_url c k) = FetchRaises e \/
   exists j, w_http w t (api_url c k) = FetchJson j /\ json_loads j = Raise e) ->
  process_city ds w k b c d t = (Ok (CityError d e), EvHttpGet (api_url c k) :: t).
Proof.
  intros [H | (j & H & Hj)];
    unfold process_city, try_except, city_body, bind, lift, urlopen_json, ret;
    rewrite H; [reflexivity|]. rewrite Hj. reflexivity.
Qed.

(** A payload that decodes to something other than a JSON object makes
    [data.get('main', {})] raise [AttributeError]: the city's result is
    that error and the request is the only event it adds. *)
Theorem payload_not_object ds w k b c d t j v :
  w_http w t (api_url c k) = FetchJson j -> json_loads j = Ok v ->
  (forall kvs, v <> PDict kvs) ->
  process_city ds w k b c d t =
    (Ok (CityError d (quote (type_name v) ++ " object has no attribute 'get'")),
     EvHttpGet (api_url c k) :: t).
Proof.
  intros H Hj Hv.
  unfold process_city, try_except, city_body, bind, lift, urlopen_json, ret.
  rewrite H, Hj.
  destruct v as [| | | | | |kvs]; try reflexivity. exfalso; exact (Hv kvs eq_refl).
Qed.

(** A payload whose [main] is present but not an object (e.g. [null])
    makes [.get('temp', 'N/A')] raise [AttributeError] on it: the city's
    result is that error and the request is the only event it adds. *)
Theorem main_not_object ds w k b c d t j kvs m :
  w_http w t (api_url c k) = FetchJson j -> json_loads j = Ok (PDict kvs) ->
  dict_get kvs "main" = Some m -> (forall kvs', m <> PDict kvs') ->
  process_city ds w k b c d t =
    (Ok (CityError d (quote (type_name m) ++ " object has no attribute 'get'")),
     EvHttpGet (api_url c k) :: t).
Proof.
  intros H Hj Hm Hv.
  unfold process_city, try_except, city_body, bind, lift, urlopen_json, ret.
  rewrite H, Hj. cbn [py_get]. rewrite Hm.
  destruct m as [| | | | | |kvs']; try reflexivity. exfalso; exact (Hv kvs' eq_refl).
Qed.


Lemma py_setitem_getitem_same v k x v' :
  py_setitem v k x = Ok v' -> py_getitem v' k = Ok x.
Proof.
  destruct v as [| | | | | |kvs]; simpl; try discriminate. intros H.
  inversion H; subst. simpl. rewrite dict_get_set, String.eqb_refl. reflexivity.
Qed.

Ltac strip_suffix s t :=
  lazymatch s with
  | t => constr:(@nil event)
  | ?x :: ?s' => let p := strip_suffix s' t in constr:(x :: p)
  end.

(** Every S3 write a city makes goes to the configured bucket as JSON,
    with metadata naming the display name, the collection timestamp
    (the first clock reading after the request) and the data source; its
    body is the decoded payload with ["timestamp"] and ["city"] set to
    that timestamp and the display name, every other key unchanged. *)
Theorem s3_write_contents ds w k b c d t r t' :
  process_city ds w k b c d t = (Ok r, t') ->
  exists pre, t' = (pre ++ t)%list /\
  forall req, In (EvS3Put req) pre ->
    exists j data,
      w_http w t (api_url c k) = FetchJson j /\ json_loads j = Ok data /\
      let ts := isoformat (w_now w (EvHttpGet (api_url c k) :: t)) in
      Bucket req = b /\ ContentType req = "application/json" /\
      Metadata req = [("city", d); ("collection_time", ts);
                      ("data_source", "openweathermap")] /\
      py_getitem (Body req) "timestamp" = Ok (PStr ts) /\
      py_getitem (Body req) "city" = Ok (PStr d) /\
      (forall key, key <> "timestamp" -> key <> "city" ->
         py_getitem (Body req) key = py_getitem data key).
Proof.
  unfold process_city, try_except, city_body, bind, lift, ret, urlopen_json, now,
    s3_put_object, table_put_item, call.
  step_M; intros H; inversion H; subst; clear H;
  match goal with
  | |- exists pre, ?s = (pre ++ ?t)%list /\ _ =>
      let p := strip_suffix s t in exists p; split; [reflexivity|]
  end;
  intros req Hin; simpl in Hin;
  repeat (destruct Hin as [Hin|Hin]; [try discriminate Hin|]); try contradiction;
  injection Hin as <-;
  do 2 eexists; (split; [first [reflexivity|eassumption]|]); (split; [eassumption|]); cbv zeta;
  cbn [Bucket ContentType Metadata Body];
  (split; [reflexivity|]); (split; [reflexivity|]); (split; [reflexivity|]);
  (split;
   [ rewrite (py_setitem_getitem _ _ _ _ _ E4) by discriminate;
     exact (py_setitem_getitem_same _ _ _ _ E3) |]);
  (split; [exact (py_setitem_getitem_same _ _ _ _ E4)|]);
  intros key Hk1 Hk2;
  rewrite (py_setitem_getitem _ _ _ _ _ E4), (py_setitem_getitem _ _ _ _ _ E3) by assumption;
  reflexivity.
Qed.


Lemma build_item_keys ds dn ts data item :
  build_item ds dn ts data = Ok item ->
  item_get item "city" = Some (AVal (PStr dn)) /\
  item_get item "timestamp" = Some (AVal (PStr ts)).
Proof.
  unfold build_item, rbind. step_M; intros H; inversion H; subst; split; reflexivity.
Qed.

(** A successful city's history ends with one S3 write followed by one
    DynamoDB write; the result, the S3 metadata and the item carry the
    same timestamp and display name, and the item is built from exactly
    the body written to S3. *)
Theorem success_record_consistent ds w k b c d t r t' :
  process_city ds w k b c d t = (Ok r, t') -> is_success r = true ->
  exists ts temp item req t2,
    r = CitySuccess d ts temp /\ t' = EvDdbPut item :: EvS3Put req :: t2 /\
    ts = isoformat (w_now w (EvHttpGet (api_url c k) :: t)) /\
    Metadata req = [("city", d); ("collection_time", ts);
                    ("data_source", "openweathermap")] /\
    build_item ds d ts (Body req) = Ok item /\
    item_get item "city" = Some (AVal (PStr d)) /\
    item_get item "timestamp" = Some (AVal (PStr ts)).
Proof.
  unfold process_city, try_except, city_body, bind, lift, ret, urlopen_json, now,
    s3_put_object, table_put_item, call.
  step_M; intros H Hs; inversion H; subst; clear H; try discriminate Hs.
  destruct (build_item_keys _ _ _ _ _ E6) as [Hc Ht].
  do 5 eexists. split; [reflexivity|]. split; [reflexivity|]. split; [reflexivity|].
  split; [reflexivity|]. split; [exact E6|]. split; [exact Hc | exact Ht].
Qed.

Lemma build_item_main_temp ds dn ts data item :
  build_item ds dn ts data = Ok item ->
  exists m x, py_getitem data "main" = Ok m /\ py_getitem m "temp" = Ok x.
Proof.
  unfold build_item, rbind. step_M; intros H; inversion H; eauto.
Qed.

(** The temperature in a success result is the value [json.loads] made
    of the payload's [main.temp], unconverted. *)
Theorem success_temperature_echo ds w k b c d t ts temp t' :
  process_city ds w k b c d t = (Ok (CitySuccess d ts temp), t') ->
  exists j data,
    w_http w t (api_url c k) = FetchJson j /\ json_loads j = Ok data /\
    py_path data ["main"; "temp"] = Ok temp.
Proof.
  unfold process_city, try_except, city_body, bind, lift, ret, urlopen_json, now,
    s3_put_object, table_put_item, call.
  step_M; intros H; inversion H; subst; clear H.
  destruct (build_item_main_temp _ _ _ _ _ E6) as (m & x & Hm & Hx).
  rewrite (py_setitem_getitem _ _ _ _ _ E4), (py_setitem_getitem _ _ _ _ _ E3)
    in Hm by discriminate.
  rewrite (py_getitem_get _ _ _ _ Hm) in E1. injection E1 as <-.
  rewrite (py_getitem_get _ _ _ _ Hx) in E2. injection E2 as <-.
  do 2 eexists. split; [reflexivity|]. split; [eassumption|].
  cbn [py_path]. rewrite Hm. cbn [rbind]. rewrite Hx. reflexivity.
Qed.

Lemma http_urls_app (a s : trace) :
  http_urls (a ++ s)%list = (http_urls a ++ http_urls s)%list.
Proof.
  induction a as [|[] a IH]; simpl; rewrite ?IH; reflexivity.
Qed.

Lemma city_body_http ds w k b c d t o t1 :
  city_body ds w k b c d t = (o, t1) ->
  exists pre, t1 = (pre ++ t)%list /\ http_urls pre = [api_url c k].
Proof.
  unfold city_body, bind, lift, ret, urlopen_json, now, s3_put_object,
    table_put_item, call.
  step_M; intros H; inversion H; subst;
  match goal with
  | |- exists pre, ?s = (pre ++ ?t)%list /\ _ =>
      let p := strip_suffix s t in exists p; split; reflexivity
  end.
Qed.

Lemma run_bodies_http ds w k b cs t os t' :
  run_bodies ds w k b cs t = (os, t') ->
  exists pre, t' = (pre ++ t)%list /\
    rev (http_urls pre) = map (fun '(c, _) => api_url c k) cs.
Proof.
  revert t os. induction cs as [|[c d] cs IH]; simpl; intros t os H.
  - inversion H; subst. exists []. split; reflexivity.
  - destruct (city_body ds w k b c d t) as [o t1] eqn:Eb.
    destruct (run_bodies ds w k b cs t1) as [os1 t2] eqn:E.
    inversion H; subst.
    destruct (city_body_http _ _ _ _ _ _ _ _ _ Eb) as (pre1 & -> & H1).
    destruct (IH _ _ E) as (pre2 & -> & H2).
    exists (pre2 ++ pre1)%list. split; [rewrite app_assoc; reflexivity|].
    rewrite http_urls_app, rev_app_distr, H1, H2. reflexivity.
Qed.

Lemma ddb_written_city ds w k b c d t o t1 :
  city_body ds w k b c d t = (o, t1) ->
  ddb_written w t1 = match o with Ok _ => 1 | Raise _ => 0 end + ddb_written w t.
Proof.
  unfold city_body, bind, lift, ret, urlopen_json, now, s3_put_object,
    table_put_item, call.
  step_M; intros H; inversion H; subst; cbn [ddb_written];
  repeat match goal with E : w_ddb_put _ _ _ = _ |- _ => rewrite E end;
  reflexivity.
Qed.

Lemma ddb_written_run ds w k b cs t os t' :
  run_bodies ds w k b cs t = (os, t') ->
  ddb_written w t' = count_success (results_of cs os) + ddb_written w t.
Proof.
  unfold count_success.
  revert t os. induction cs as [|[c d] cs IH]; intros t os H; cbn [run_bodies] in H.
  - inversion H; subst. reflexivity.
  - destruct (city_body ds w k b c d t) as [o t1] eqn:Eb.
    destruct (run_bodies ds w k b cs t1) as [os1 t2] eqn:E.
    inversion H; subst.
    rewrite (IH _ _ E), (ddb_written_city _ _ _ _ _ _ _ _ _ Eb).
    destruct o as [r|e].
    + destruct (city_body_success _ _ _ _ _ _ _ _ _ Eb) as (ts & temp & ->).
      cbn [results_of outcome_result filter is_success List.length]. lia.
    + cbn [results_of outcome_result filter is_success List.length]. lia.
Qed.

Lemma lambda_handler_200_inv ds w env ev ctx t r t' :
  lambda_handler ds w env ev ctx t = (Ok r, t') -> statusCode r = 200 ->
  exists k b os t2,
    clients_ok w t /\
    truthy (env_get env "WEATHER_API_KEY") = Some k /\
    truthy (env_get env "S3_BUCKET_NAME") = Some b /\
    run_bodies ds w k b city_pairs (init_trace t) = (os, t2) /\
    t' = EvNow (w_now w t2) :: t2 /\
    r = mkresponse 200
          (BodySummary "Weather data collection completed" 4
             (count_success (results_of city_pairs os))
             (rate_spec (count_success (results_of city_pairs os)) 4)
             (isoformat (w_now w t2)) (results_of city_pairs os)).
Proof.
  intros H H200.
  destruct (clients_ok_or_fail w t) as [Hc | (e & t1 & Hf)].
  - destruct (truthy (env_get env "WEATHER_API_KEY")) as [k|] eqn:Hk.
    + destruct (truthy (env_get env "S3_BUCKET_NAME")) as [b|] eqn:Hb.
      * destruct (run_bodies ds w k b city_pairs (init_trace t)) as [os t2] eqn:Hr.
        rewrite (lambda_handler_ok _ _ _ _ _ _ _ _ (handler_body_200 _ _ _ _ _ _ _ _ Hc Hk Hb Hr)) in H.
        inversion H; subst. exists k, b, os, t2. auto 7.
      * rewrite (lambda_handler_ok _ _ _ _ _ _ _ _ (handler_body_missing_bucket _ _ _ _ _ Hc Hk Hb)) in H.
        inversion H; subst. discriminate H200.
    + rewrite (lambda_handler_ok _ _ _ _ _ _ _ _ (handler_body_missing_key _ _ _ _ Hc Hk)) in H.
      inversion H; subst. discriminate H200.
  - rewrite (lambda_handler_fatal _ _ _ _ _ _ _ _ (handler_body_clients_fail _ _ _ _ _ _ Hf)) in H.
    inversion H; subst. discriminate H200.
Qed.

(** On every status-200 return, the handler requested exactly the four
    city URLs, once each and in the order Pretoria, Cape Town,
    Johannesburg, Durban, each built from the configured API key. *)
Theorem http_requests_200 ds w env ev ctx t r t' :
  lambda_handler ds w env ev ctx t = (Ok r, t') -> statusCode r = 200 ->
  exists k pre,
    truthy (env_get env "WEATHER_API_KEY") = Some k /\ t' = (pre ++ t)%list /\
    rev (http_urls pre) = map (fun c => api_url c k) cities.
Proof.
  intros H H200.
  destruct (lambda_handler_200_inv _ _ _ _ _ _ _ _ H H200)
    as (k & b & os & t2 & _ & Hk & _ & Hr & -> & _).
  destruct (run_bodies_http _ _ _ _ _ _ _ _ Hr) as (pre & -> & Hu).
  exists k, (EvNow (w_now w (pre ++ init_trace t)) :: pre ++
             [EvInit (DynamoDBTable "WeatherData"); EvInit DynamoDBResource;
              EvInit S3Client])%list.
  split; [exact Hk|]. split; [unfold init_trace; cbn [app]; rewrite <- app_assoc; reflexivity|].
  cbn [http_urls]. rewrite http_urls_app. simpl http_urls. rewrite app_nil_r, Hu.
  reflexivity.
Qed.

(** On every status-200 return, [successful_cities] equals the number of
    DynamoDB writes the service accepted during the invocation. *)
Theorem successful_cities_rows ds w env ev ctx t r t' :
  lambda_handler ds w env ev ctx t = (Ok r, t') -> statusCode r = 200 ->
  exists msg n s rate et rs,
    body r = BodySummary msg n s rate et rs /\ ddb_written w t' = s + ddb_written w t.
Proof.
  intros H H200.
  destruct (lambda_handler_200_inv _ _ _ _ _ _ _ _ H H200)
    as (k & b & os & t2 & _ & _ & _ & Hr & -> & ->).
  do 6 eexists. split; [reflexivity|].
  cbn [ddb_written]. rewrite (ddb_written_run _ _ _ _ _ _ _ _ Hr).
  unfold init_trace. cbn [ddb_written]. reflexivity.
Qed.

(** The city segment of the S3 key, [display_name.replace(' ', '_')],
    has the display name's length and no space, and a name without a
    space is left unchanged. *)
Theorem replace_space_safe s :
  String.length (replace_space s) = String.length s /\
  (forall n, String.get n (replace_space s) <> Some " "%char) /\
  ((forall n, String.get n s <> Some " "%char) -> replace_space s = s).
Proof.
  induction s as [|a s (IHl & IHg & IHid)]; simpl.
  - split; [reflexivity|]. split; [intros n; destruct n; discriminate | reflexivity].
  - split; [rewrite IHl; reflexivity|]. split.
    + intros [|n]; simpl; [|apply IHg].
      destruct (Ascii.eqb_spec a " "%char); [discriminate|congruence].
    + intros Hn. pose proof (Hn 0%nat) as H0. simpl in H0.
      destruct (Ascii.eqb_spec a " "%char) as [Ha|Ha]; [congruence|].
      rewrite IHid; [reflexivity|]. intros n. exact (Hn (S n)).
Qed.

Lemma digits_aux_length fuel : forall z acc k,
  0 <= z < 10 ^ Z.of_nat (S k) ->
  (String.length (digits_aux fuel z acc) <= S k + String.length acc)%nat.
Proof.
  induction fuel as [|f IH]; intros z acc k Hz; simpl; [lia|].
  destruct (z <? 10) eqn:Hlt; simpl; [lia|].
  apply Z.ltb_ge in Hlt.
  destruct k as [|k]; [simpl in Hz; lia|].
  specialize (IH (z / 10) (String (digit_char (z mod 10)) acc) k).
  simpl in IH. enough (0 <= z / 10 < 10 ^ Z.of_nat (S k)) by (specialize (IH H); lia).
  rewrite Nat2Z.inj_succ, Z.pow_succ_r in Hz by lia.
  split; [apply Z.div_pos; lia|]. apply Z.div_lt_upper_bound; lia.
Qed.

Lemma string_length_app (s1 s2 : string) :
  String.length (s1 ++ s2) = (String.length s1 + String.length s2)%nat.
Proof. induction s1; simpl; congruence. Qed.

Lemma zeros_length n : String.length (zeros n) = n.
Proof. induction n; simpl; congruence. Qed.

Lemma zpad_length w z :
  0 <= z < 10 ^ Z.of_nat w -> (1 <= w)%nat -> String.length (zpad w z) = w.
Proof.
  intros Hz Hw. unfold zpad, str_Z.
  replace (z <? 0) with false by (symmetry; apply Z.ltb_ge; lia).
  destruct w as [|k]; [lia|].
  pose proof (digits_aux_length (S (Z.to_nat (Z.log2 z))) z "" k Hz) as H.
  unfold str_nonneg. change (String.length "") with 0%nat in H.
  rewrite string_length_app, zeros_length. lia.
Qed.

(** [datetime.isoformat()] of a valid instant has 19 characters when the
    microsecond is 0 and 26 otherwise: the fractional part is left out
    exactly when it is zero. *)
Theorem isoformat_length dt :
  1 <= year dt <= 9999 -> 1 <= month dt <= 12 -> 1 <= day dt <= 31 ->
  0 <= hour dt < 24 -> 0 <= minute dt < 60 -> 0 <= second dt < 60 ->
  0 <= microsecond dt < 1000000 ->
  String.length (isoformat dt) = if microsecond dt =? 0 then 19%nat else 26%nat.
Proof.
  intros Hy Hm Hd Hh Hmi Hs Hu. unfold isoformat.
  rewrite !string_length_app.
  rewrite !zpad_length by (simpl; lia).
  destruct (microsecond dt =? 0); simpl String.length.
  - reflexivity.
  - rewrite zpad_length by (simpl; lia). reflexivity.
Qed.

(** *** Instances *)
Lemma fetch_or_decode_failure_witness :
  w_http world_one_down [] (api_url "Johannesburg" "k") =
    FetchRaises "<urlopen error [Errno -3] Temporary failure in name resolution>" /\
  process_city reject_strings world_one_down "k" "b" "Johannesburg" "Johannesburg" [] =
    (Ok (CityError "Johannesburg"
           "<urlopen error [Errno -3] Temporary failure in name resolution>"),
     [EvHttpGet (api_url "Johannesburg" "k")]).
Proof.
  split; [reflexivity|].
  apply (fetch_or_decode_failure reject_strings world_one_down
           "k" "b" "Johannesburg" "Johannesburg" []).
  left. reflexivity.
Defined.

Lemma payload_not_object_witness :
  json_loads (JArray []) = Ok (PList []) /\
  process_city reject_strings (world_ok (JArray [])) "k" "b" "Durban" "Durban" [] =
    (Ok (CityError "Durban" "'list' object has no attribute 'get'"),
     [EvHttpGet (api_url "Durban" "k")]).
Proof.
  split; [reflexivity|].
  apply (payload_not_object reject_strings (world_ok (JArray [])) "k" "b" "Durban" "Durban" []
           (JArray []) (PList [])); [reflexivity | reflexivity | intros kvs; discriminate].
Defined.

Lemma main_not_object_witness :
  process_city reject_strings (world_ok (JObject [("main", JNull)]))
    "k" "b" "Durban" "Durban" [] =
    (Ok (CityError "Durban" "'NoneType' object has no attribute 'get'"),
     [EvHttpGet (api_url "Durban" "k")]).
Proof.
  apply (main_not_object reject_strings (world_ok (JObject [("main", JNull)]))
           "k" "b" "Durban" "Durban" [] (JObject [("main", JNull)]) [("main", PNone)] PNone);
    [reflexivity | reflexivity | reflexivity | intros kvs; discriminate].
Defined.


Lemma s3_write_contents_witness :
  exists r t',
    process_city reject_strings (world_ok (sample_payload (JFrac false 23456 (-3))))
      "k" "b" "Durban" "Durban" [] = (Ok r, t') /\
    exists pre, t' = (pre ++ [])%list /\
    forall req, In (EvS3Put req) pre ->
      exists j data,
        w_http (world_ok (sample_payload (JFrac false 23456 (-3)))) []
          (api_url "Durban" "k") = FetchJson j /\ json_loads j = Ok data /\
        let ts := isoformat (w_now (world_ok (sample_payload (JFrac false 23456 (-3))))
                               [EvHttpGet (api_url "Durban" "k")]) in
        Bucket req = "b" /\ ContentType req = "application/json" /\
        Metadata req = [("city", "Durban"); ("collection_time", ts);
                        ("data_source", "openweathermap")] /\
        py_getitem (Body req) "timestamp" = Ok (PStr ts) /\
        py_getitem (Body req) "city" = Ok (PStr "Durban") /\
        (forall key, key <> "timestamp" -> key <> "city" ->
           py_getitem (Body req) key = py_getitem data key).
Proof.
  destruct (process_city reject_strings (world_ok (sample_payload (JFrac false 23456 (-3))))
      "k" "b" "Durban" "Durban" []) as [[r|e] t'] eqn:E.
  - exists r, t'. split; [reflexivity|].
    exact (s3_write_contents _ _ _ _ _ _ _ r t' E).
  - vm_compute in E; discriminate.
Defined.

Lemma success_record_consistent_witness :
  exists r t',
    process_city reject_strings (world_ok (sample_payload (JFrac false 23456 (-3))))
      "k" "b" "Durban" "Durban" [] = (Ok r, t') /\ is_success r = true /\
    exists ts temp item req t2,
      r = CitySuccess "Durban" ts temp /\ t' = EvDdbPut item :: EvS3Put req :: t2 /\
      ts = isoformat (w_now (world_ok (sample_payload (JFrac false 23456 (-3))))
                       [EvHttpGet (api_url "Durban" "k")]) /\
      Metadata req = [("city", "Durban"); ("collection_time", ts);
                      ("data_source", "openweathermap")] /\
      build_item reject_strings "Durban" ts (Body req) = Ok item /\
      item_get item "city" = Some (AVal (PStr "Durban")) /\
      item_get item "timestamp" = Some (AVal (PStr ts)).
Proof.
  destruct (process_city reject_strings (world_ok (sample_payload (JFrac false 23456 (-3))))
      "k" "b" "Durban" "Durban" []) as [[r|e] t'] eqn:E.
  - exists r, t'. split; [reflexivity|].
    assert (Hs : is_success r = true) by (vm_compute in E; inversion E; reflexivity).
    split; [exact Hs|].
    exact (success_record_consistent _ _ _ _ _ _ _ r t' E Hs).
  - vm_compute in E; discriminate.
Defined.

Lemma success_temperature_echo_witness :
  exists t',
    process_city reject_strings (world_ok (sample_payload (JFrac false 23456 (-3))))
      "k" "b" "Durban" "Durban" [] =
      (Ok (CitySuccess "Durban" "2024-03-05T10:00:00"
             (PFloat (float_of_literal false 23456 (-3)))), t') /\
    exists j data,
      w_http (world_ok (sample_payload (JFrac false 23456 (-3)))) []
        (api_url "Durban" "k") = FetchJson j /\ json_loads j = Ok data /\
      py_path data ["main"; "temp"] = Ok (PFloat (float_of_literal false 23456 (-3))).
Proof.
  destruct (process_city reject_strings (world_ok (sample_payload (JFrac false 23456 (-3))))
      "k" "b" "Durban" "Durban" []) as [o t'] eqn:E.
  exists t'.
  assert (Ho : o = Ok (CitySuccess "Durban" "2024-03-05T10:00:00"
                         (PFloat (float_of_literal false 23456 (-3)))))
    by (vm_compute in E; inversion E; reflexivity).
  subst o. split; [reflexivity|].
  exact (success_temperature_echo _ _ _ _ _ _ _ _ _ _ E).
Defined.

Lemma http_requests_200_witness :
  exists r t',
    lambda_handler reject_strings (world_ok (sample_payload (JFrac false 23456 (-3))))
      env_kb PNone PNone [] = (Ok r, t') /\ statusCode r = 200 /\
    exists k pre,
      truthy (env_get env_kb "WEATHER_API_KEY") = Some k /\ t' = (pre ++ [])%list /\
      rev (http_urls pre) = map (fun c => api_url c k) cities.
Proof.
  destruct (lambda_handler reject_strings (world_ok (sample_payload (JFrac false 23456 (-3))))
      env_kb PNone PNone []) as [[r|e] t'] eqn:E.
  - exists r, t'. split; [reflexivity|].
    assert (Hs : statusCode r = 200) by (vm_compute in E; inversion E; reflexivity).
    split; [exact Hs|].
    exact (http_requests_200 _ _ _ _ _ _ r t' E Hs).
  - vm_compute in E; discriminate.
Defined.

Lemma successful_cities_rows_witness :
  exists r t',
    lambda_handler reject_strings world_one_down env_kb PNone PNone [] = (Ok r, t') /\
    statusCode r = 200 /\
    exists msg n s rate et rs,
      body r = BodySummary msg n s rate et rs /\
      ddb_written world_one_down t' = s + ddb_written world_one_down [].
Proof.
  destruct (lambda_handler reject_strings world_one_down env_kb PNone PNone [])
    as [[r|e] t'] eqn:E.
  - exists r, t'. split; [reflexivity|].
    assert (Hs : statusCode r = 200) by (vm_compute in E; inversion E; reflexivity).
    split; [exact Hs|].
    exact (successful_cities_rows _ _ _ _ _ _ r t' E Hs).
  - vm_compute in E; discriminate.
Defined.

Lemma isoformat_length_witness :
  String.length (isoformat (mkdatetime 2024 3 5 23 59 59 999999)) = 26%nat.
Proof.
  apply (isoformat_length (mkdatetime 2024 3 5 23 59 59 999999)); simpl; lia.
Defined.
